(** * Managing-Space-Complexity: the upload / clean / partition / size pipeline

    A shallow embedding of [src/application.py]: the helpers
    [dataframe_to_csv_bytes], [bytesize_fmt], [read_uploaded_file], the
    upload handler of the "Code Implementation" section (lines 611-670)
    and the navigation between sections (lines 499-520), together with
    the library operations they call ([str.splitlines], [str.strip],
    [DataFrame.dropna], [DataFrame.drop_duplicates], boolean indexing,
    [pd.to_datetime(..., errors="coerce")]).

    Conventions.
    - A Python [str] is a list of Unicode code points ([N]); literals of the
      source are written as Rocq strings and injected with [py].
    - A Python [int] is a [Z]; a Python [float] reached by the code is always
      an integer divided by a power of 1024 and is kept exactly.
    - A call that may raise returns an [outcome]; the handler threads the
      widgets it emits through the monad [ui]. *)

From Stdlib Require Import ZArith List String Ascii Bool Lia.
From stdpp Require Import base tactics option list pretty.
Import ListNotations.

Local Open Scope Z_scope.

(* ------------------------------------------------------------------ *)
(** ** Results of calls that may raise                                  *)
(* ------------------------------------------------------------------ *)

(** [Raise msg] is an exception deriving from [Exception] (it is caught by
    the handler's [except Exception as e]); [Stop] is the control exception
    of [st.stop()], which that clause does not catch. *)
Inductive outcome (A : Type) : Type :=
| Ok (a : A)
| Raise (msg : string)
| Stop.
Arguments Ok {A} a.
Arguments Raise {A} msg.
Arguments Stop {A}.

Definition obind {A B} (x : outcome A) (f : A → outcome B) : outcome B :=
  match x with
  | Ok a => f a
  | Raise msg => Raise msg
  | Stop => Stop
  end.

(* ------------------------------------------------------------------ *)
(** ** Python strings                                                   *)
(* ------------------------------------------------------------------ *)

Module Py.

(** A [str]: the sequence of its code points. *)
Abbreviation str := (list N) (only parsing).

(** A [bytes] object. *)
Abbreviation bytes := (list Byte.byte) (only parsing).

(** An ASCII literal of the source as a [str]. *)
Definition py (s : string) : str :=
  map N_of_ascii (list_ascii_of_string s).

(** The line boundaries of [str.splitlines]: LF, VT, FF, CR, FS, GS, RS,
    NEL, LINE SEPARATOR, PARAGRAPH SEPARATOR. *)
Definition is_linebreak (c : N) : bool :=
  existsb (N.eqb c) [10; 11; 12; 13; 28; 29; 30; 133; 8232; 8233]%N.

(** The characters [str.strip()] removes ([str.isspace]). *)
Definition isspace (c : N) : bool :=
  ((9 <=? c) && (c <=? 13) || (28 <=? c) && (c <=? 32)
   || (8192 <=? c) && (c <=? 8202)
   || existsb (N.eqb c) [133; 160; 5760; 8232; 8233; 8239; 8287; 12288])%N.

(** [s.splitlines()]: [cur] is the line being read, reversed; [after_cr]
    records that the previous character was a CR, so that a LF right after
    it belongs to the same boundary. A text that ends in a boundary has no
    empty last line. *)
Fixpoint splitlines_go (after_cr : bool) (cur : str) (s : str)
  : list str :=
  match s with
  | [] => match cur with [] => [] | _ => [rev cur] end
  | c :: s' =>
      if after_cr && (c =? 10)%N then splitlines_go false cur s'
      else if is_linebreak c
           then rev cur :: splitlines_go (c =? 13)%N [] s'
           else splitlines_go false (c :: cur) s'
  end.

Definition splitlines (s : str) : list str := splitlines_go false [] s.

Fixpoint lstrip (s : str) : str :=
  match s with
  | c :: s' => if isspace c then lstrip s' else s
  | [] => []
  end.

Definition rstrip (s : str) : str := rev (lstrip (rev s)).

(** [s.strip()] *)
Definition strip (s : str) : str := rstrip (lstrip s).

(** [s.split('.')]: never empty; [cur] is the field being read, reversed. *)
Fixpoint split_dot_go (cur : str) (s : str) : list str :=
  match s with
  | [] => [rev cur]
  | c :: s' =>
      if (c =? 46)%N then rev cur :: split_dot_go [] s'
      else split_dot_go (c :: cur) s'
  end.

Definition split_dot (s : str) : list str := split_dot_go [] s.

(** [s.lower()] on the ASCII letters; the case mappings of other scripts
    are left alone. No character outside ASCII lowers to a letter of the
    six extensions the dispatcher compares with, so the comparisons come
    out as in Python; only the text of the error message can differ, for
    a name with such characters. *)
Definition lower_char (c : N) : N :=
  if ((65 <=? c) && (c <=? 90))%N then (c + 32)%N else c.

Definition lower (s : str) : str := map lower_char s.

(** ["\n".join(parts)] *)
Fixpoint join_nl (parts : list str) : str :=
  match parts with
  | [] => []
  | [p] => p
  | p :: rest => p ++ 10%N :: join_nl rest
  end.

End Py.

Import Py.

(* ------------------------------------------------------------------ *)
(** ** Numbers of [bytesize_fmt]                                        *)
(* ------------------------------------------------------------------ *)

Module Num.

(** The value of [num] inside [bytesize_fmt]: the [int] it is called with,
    or, after [num /= 1024.0], the float [m / 1024^k] (a division of a
    double by a power of two is exact, so the pair is the float). *)
Inductive pynum : Type :=
| PyInt (n : Z)
| PyFloat (m : Z) (k : nat).

(** The double nearest to an integer, ties to even (the conversion
    [int -> float] of [int / float]); it raises [OverflowError] from
    [2^1024] on. The result is the exact integer value of that double. *)
Definition round_to_53 (a : Z) : Z :=
  let bits := Z.log2 a + 1 in
  if bits <=? 53 then a
  else
    let sh := bits - 53 in
    let q := a / 2 ^ sh in
    let r := a mod 2 ^ sh in
    let half := 2 ^ (sh - 1) in
    let q' := if r <? half then q
              else if half <? r then q + 1
              else if Z.even q then q else q + 1 in
    q' * 2 ^ sh.

Definition float_of_int (n : Z) : outcome Z :=
  let m := round_to_53 (Z.abs n) in
  if 2 ^ 1024 <=? m
  then Raise "int too large to convert to float"
  else Ok (Z.sgn n * m).

(** [abs(num) < 1024.0] (Python compares an int with a float exactly). *)
Definition abs_lt_1024 (x : pynum) : bool :=
  match x with
  | PyInt n => Z.abs n <? 1024
  | PyFloat m k => Z.abs m <? 1024 * 1024 ^ Z.of_nat k
  end.

(** [num /= 1024.0] *)
Definition truediv_1024 (x : pynum) : outcome pynum :=
  match x with
  | PyInt n => obind (float_of_int n) (λ m, Ok (PyFloat m 1))
  | PyFloat m k => Ok (PyFloat m (S k))
  end.

Definition digit_char (d : Z) : ascii :=
  ascii_of_N (48 + Z.to_N d).

(** The [d] decimal digits of [x], most significant first ([x < 10^d]). *)
Fixpoint frac_digits (d : nat) (x : Z) : string :=
  match d with
  | O => EmptyString
  | S d' => String (digit_char (x / 10 ^ Z.of_nat d' mod 10))
                   (frac_digits d' x)
  end.

(** [m / den] in fixed point with [d] decimals, correctly rounded with
    ties to even, as the [f] presentation type prints a float; the sign
    is that of the float. *)
Definition format_fixed (d : nat) (m den : Z) : string :=
  let a := Z.abs m * 10 ^ Z.of_nat d in
  let q := a / den in
  let r := a mod den in
  let q' := if 2 * r <? den then q
            else if den <? 2 * r then q + 1
            else if Z.even q then q else q + 1 in
  let sign := if m <? 0 then "-"%string else ""%string in
  (sign +:+ pretty (Z.to_N (q' / 10 ^ Z.of_nat d))
     +:+ "." +:+ frac_digits d (q' mod 10 ^ Z.of_nat d))%string.

(** [f"{num:3.2f}"] and [f"{num:.1f}"]: an int is converted to a float
    first; the minimal width 3 never pads, the text has at least four
    characters. *)
Definition format_f (d : nat) (x : pynum) : outcome string :=
  match x with
  | PyInt n => obind (float_of_int n) (λ m, Ok (format_fixed d m 1))
  | PyFloat m k => Ok (format_fixed d m (1024 ^ Z.of_nat k))
  end.

End Num.

Import Num.

(* ------------------------------------------------------------------ *)
(** ** [bytesize_fmt] (lines 16-21)                                     *)
(* ------------------------------------------------------------------ *)

(** The [for unit in [...]] loop, then the statement after it. *)
Fixpoint bytesize_loop (units : list string) (num : pynum) (suffix : string)
  : outcome string :=
  match units with
  | unit :: rest =>
      if abs_lt_1024 num
      then obind (format_f 2 num)
                 (λ s, Ok (s +:+ " " +:+ unit +:+ suffix)%string)
      else obind (truediv_1024 num) (λ num', bytesize_loop rest num' suffix)
  | [] => obind (format_f 1 num) (λ s, Ok (s +:+ " P" +:+ suffix)%string)
  end.

Definition bytesize_fmt (num : Z) : outcome string :=
  bytesize_loop [""; "K"; "M"; "G"; "T"]%string (PyInt num) "B"%string.

(* ------------------------------------------------------------------ *)
(** ** Tables ([pandas.DataFrame])                                      *)
(* ------------------------------------------------------------------ *)

Module Pandas.

(** A cell. [VNull] is the missing value ([None], [NaN], [NaT]); numeric
    cells are integers; [VTime t] is a timestamp, [t] nanoseconds since
    the epoch (naive, as [datetime.now()] is). *)
Inductive value : Type :=
| VNull
| VNum (n : Z)
| VStr (s : str)
| VTime (t : Z).

#[global] Instance value_eq_dec : EqDecision value.
Proof. solve_decision. Defined.

(** A row holds one cell per column, in column order. *)
Abbreviation row := (list value) (only parsing).

Record DataFrame : Type := mkDataFrame {
  columns : list str;
  rows : list row
}.

(** [pd.DataFrame()] *)
Definition empty_frame : DataFrame := mkDataFrame [] [].

(** [len(df)] *)
Definition len (df : DataFrame) : Z := Z.of_nat (length (rows df)).

(** [df.head()] *)
Definition head (df : DataFrame) : DataFrame :=
  mkDataFrame (columns df) (take 5 (rows df)).

(** [pd.isna] on a cell. *)
Definition isna (v : value) : bool :=
  match v with VNull => true | _ => false end.

(** [df[mask]]: the rows whose mask entry is [True], in order. *)
Fixpoint boolean_index (rs : list row) (mask : list bool) : list row :=
  match rs, mask with
  | r :: rs', b :: mask' =>
      if b then r :: boolean_index rs' mask' else boolean_index rs' mask'
  | _, _ => []
  end.

(** [df.dropna()]: with the defaults ([axis=0], [how="any"]) a row goes
    as soon as one of its cells is missing. The mask is
    [df.notna().all(axis=1)]. *)
Definition notna_all (r : row) : bool := forallb (λ v, negb (isna v)) r.

Definition dropna (df : DataFrame) : DataFrame :=
  mkDataFrame (columns df)
              (boolean_index (rows df) (map notna_all (rows df))).

(** [df.duplicated()] with the default [keep="first"]: a row is marked
    when an equal row occurs above it; [seen] holds every row met so far
    (the hash table of the library). *)
Fixpoint duplicated_go (seen : list row) (rs : list row) : list bool :=
  match rs with
  | [] => []
  | r :: rs' => bool_decide (r ∈ seen) :: duplicated_go (r :: seen) rs'
  end.

Definition duplicated (rs : list row) : list bool := duplicated_go [] rs.

(** [df.drop_duplicates()] is [df[~df.duplicated()]]. *)
Definition drop_duplicates (df : DataFrame) : DataFrame :=
  mkDataFrame (columns df)
              (boolean_index (rows df) (map negb (duplicated (rows df)))).

(** The rows [drop_duplicates] keeps, with the rows met so far explicit. *)
Definition dedup (seen : list row) (rs : list row) : list row :=
  boolean_index rs (map negb (duplicated_go seen rs)).

(** ["timestamp" in df.columns] and the position of that column. *)
Definition column_index (name : str) (df : DataFrame) : option nat :=
  fst <$> list_find (λ c, c = name) (columns df).

(** [df[name]] as the list of its cells (a row too short for the column
    reads as missing). *)
Definition cell (i : nat) (r : row) : value := default VNull (r !! i).

Definition get_column (i : nat) (df : DataFrame) : list value :=
  map (cell i) (rows df).

(** [df[name] = series] *)
Definition set_column (i : nat) (series : list value) (df : DataFrame)
  : DataFrame :=
  mkDataFrame (columns df)
              (zip_with (λ r v, <[i:=v]> r) (rows df) series).

(** The dtype of the column [pd.to_datetime] returns: time-zone naive
    ([datetime64[ns]]), or carrying a time zone ([datetime64[ns, tz]], or
    objects with offsets); [msg] is the text of the [TypeError] that the
    comparison of such a column with a naive [datetime] raises. *)
Inductive tz : Type :=
| Naive
| Aware (msg : string).

(** [series >= cutoff] and [series < cutoff] on a datetime column: a
    comparison with [NaT] is [False]. *)
Definition ge_cutoff (cutoff : Z) (v : value) : bool :=
  match v with VTime t => cutoff <=? t | _ => false end.

Definition lt_cutoff (cutoff : Z) (v : value) : bool :=
  match v with VTime t => t <? cutoff | _ => false end.

(** The comparison of a parsed column with the naive cutoff: the mask,
    entry by entry, when the column is naive; the [TypeError] when it
    carries a time zone. *)
Definition compare_cutoff (dtype : tz) (cmp : value → bool)
           (series : list value) : outcome (list bool) :=
  match dtype with
  | Naive => Ok (map cmp series)
  | Aware msg => Raise msg
  end.

End Pandas.

Import Pandas.

(* ------------------------------------------------------------------ *)
(** ** The libraries behind the dispatcher and the handler              *)
(* ------------------------------------------------------------------ *)

(** The parsers and encoders the program calls and does not define. A
    reader may raise; a PDF page's [extract_text()] returns a text, returns
    nothing ([None]) or raises. [pd.to_datetime(series, errors="coerce")]
    has an outcome for the column and a value for each cell:
    [to_datetime_dtype] is the outcome, an exception (offsets that
    differ, which [errors="coerce"] does not absorb) or the dtype of the
    column returned; [parse_datetime] is what the call makes of a cell
    that is neither missing nor already a timestamp ([None]: it does not
    parse). [gzip_compress] is [gzip.compress] as it behaves in the run at
    hand: it writes the time of the call into the header, so the bytes of
    two runs need not be the same. *)
Class Libs : Type := mkLibs {
  read_csv : bytes → outcome DataFrame;
  read_excel : bytes → outcome DataFrame;
  read_json : bytes → outcome DataFrame;
  decode_utf8 : bytes → outcome str;
  pdf_pages : bytes → outcome (list (outcome (option str)));
  docx_paragraphs : bytes → outcome (list (outcome str));
  to_csv_utf8 : DataFrame → bytes;
  gzip_compress : bytes → bytes;
  parse_datetime : value → option Z;
  to_datetime_dtype : list value → outcome tz
}.

(** [uploaded_file]: its name and its bytes. *)
Record UploadedFile : Type := mkUploaded {
  name : str;
  content : bytes
}.

(* ------------------------------------------------------------------ *)
(** ** Widgets and the handler's monad                                  *)
(* ------------------------------------------------------------------ *)

Inductive metric_value : Type :=
| MInt (n : Z)
| MStr (s : str).

(** What the page shows, in the order of the calls. *)
Inductive ui_event : Type :=
| st_markdown (s : str)
| st_dataframe (df : DataFrame)
| st_info (s : str)
| st_success (s : str)
| st_warning (s : str)
| st_error (s : str)
| st_metric (label : str) (v : metric_value)
| st_download_button (label : str) (data : bytes) (file_name mime : str).

(** A computation that shows widgets and may raise. *)
Definition ui (A : Type) : Type :=
  list ui_event → list ui_event * outcome A.

Definition ret {A} (a : A) : ui A := λ evs, (evs, Ok a).

Definition bind {A B} (m : ui A) (f : A → ui B) : ui B :=
  λ evs,
    match m evs with
    | (evs', Ok a) => f a evs'
    | (evs', Raise msg) => (evs', Raise msg)
    | (evs', Stop) => (evs', Stop)
    end.

Definition emit (e : ui_event) : ui unit := λ evs, (evs ++ [e], Ok tt).

Definition lift {A} (x : outcome A) : ui A := λ evs, (evs, x).

(** [try: body  except Exception as e: handler(e)]; [Stop] passes. *)
Definition try_except {A} (body : ui A) (handler : string → ui unit)
  : ui (option A) :=
  λ evs,
    match body evs with
    | (evs', Ok a) => (evs', Ok (Some a))
    | (evs', Raise msg) =>
        match handler msg evs' with
        | (evs'', Ok _) => (evs'', Ok None)
        | (evs'', Raise msg') => (evs'', Raise msg')
        | (evs'', Stop) => (evs'', Stop)
        end
    | (evs', Stop) => (evs', Stop)
    end.

#[global] Instance ui_ret : MRet ui := @ret.
#[global] Instance ui_bind : MBind ui := λ A B f m, bind m f.

(** The widgets a run shows, from an empty page. *)
Definition run {A} (m : ui A) : list ui_event * outcome A := m [].

(* ------------------------------------------------------------------ *)
(** ** The program                                                      *)
(* ------------------------------------------------------------------ *)

Section Application.

Context {L : Libs}.

(** [dataframe_to_csv_bytes] (lines 13-14): [to_csv(index=False)] and
    the UTF-8 encoding, both of the library. *)
Definition dataframe_to_csv_bytes (df : DataFrame) : bytes :=
  to_csv_utf8 df.

(** [uploaded_file.name.split('.')[-1].lower()] (line 26) *)
Definition file_extension (f : UploadedFile) : str :=
  lower (List.last (split_dot (name f)) []).

(** [pd.DataFrame([line.strip() for line in text_content.splitlines()],
    columns=['text_content'])] (lines 37, 44, 49) *)
Definition text_frame (text_content : str) : DataFrame :=
  mkDataFrame [py "text_content"]
              (map (λ line, [VStr (strip line)]) (splitlines text_content)).

(** [x or ""] on the result of [extract_text()] *)
Definition or_empty (x : option str) : str :=
  match x with
  | Some (c :: t) => c :: t
  | Some [] | None => []
  end.

(** The loop of lines 42-43: [text_content += page.extract_text() or ""]. *)
Fixpoint pdf_text (text_content : str) (pages : list (outcome (option str)))
  : outcome str :=
  match pages with
  | [] => Ok text_content
  | page :: pages' =>
      obind page (λ t, pdf_text (text_content ++ or_empty t) pages')
  end.

(** [[para.text for para in doc.paragraphs]] (line 48) *)
Fixpoint para_texts (paras : list (outcome str)) : outcome (list str) :=
  match paras with
  | [] => Ok []
  | para :: paras' =>
      obind para (λ t, obind (para_texts paras') (λ ts, Ok (t :: ts)))
  end.

(** [read_uploaded_file] (lines 24-55) *)
Definition read_uploaded_file (f : UploadedFile) : ui DataFrame :=
  let file_extension := file_extension f in
  if decide (file_extension = py "csv") then
    lift (read_csv (content f))
  else if decide (file_extension = py "xlsx") then
    lift (read_excel (content f))
  else if decide (file_extension = py "json") then
    lift (read_json (content f))
  else if decide (file_extension = py "txt") then
    text_content ← lift (decode_utf8 (content f));
    mret (text_frame text_content)
  else if decide (file_extension = py "pdf") then
    pages ← lift (pdf_pages (content f));
    text_content ← lift (pdf_text [] pages);
    mret (text_frame text_content)
  else if decide (file_extension = py "docx") then
    paras ← lift (docx_paragraphs (content f));
    texts ← lift (para_texts paras);
    mret (text_frame (join_nl texts))
  else
    emit (st_error (py "Unsupported file type: ." ++ file_extension));;
    lift Stop.

(** Lines 624-628 and 633-634: the two filters and the two counts. *)
Definition clean_block (df : DataFrame) : DataFrame * Z * Z :=
  let before := len df in
  let df := dropna df in
  let after_na := len df in
  let df := drop_duplicates df in
  let after_dup := len df in
  let removed_na := before - after_na in
  let removed_dup := after_na - after_dup in
  (df, removed_na, removed_dup).

(** The characters that open the labels of lines 637-644 and 666-667
    (a pictograph), as the code points the source file holds. *)
Definition wastebasket : list N := [240; 376; 8212; 8216; 239; 184]%N.

Definition check_mark : list N := [226; 339; 8230]%N.

Definition down_arrow : list N := [226; 172; 8225; 239; 184]%N.

(** Lines 636-644: the two reports. *)
Definition report_block (removed_na removed_dup : Z) : ui unit :=
  (if 0 <? removed_na
   then emit (st_info (wastebasket ++ py " Removed "
                         ++ py (pretty removed_na)
                         ++ py " incomplete rows."))
   else emit (st_success (check_mark ++ py " No incomplete rows found.")));;
  (if 0 <? removed_dup
   then emit (st_info (wastebasket ++ py " Removed "
                         ++ py (pretty removed_dup)
                         ++ py " duplicate rows."))
   else emit (st_success (check_mark ++ py " No duplicate rows found."))).

(** [pd.to_datetime(series, errors="coerce")]: a cell that does not parse
    becomes [NaT]. *)
Definition to_datetime1 (v : value) : option Z :=
  match v with
  | VNull => None
  | VTime t => Some t
  | _ => parse_datetime v
  end.

Definition to_datetime_coerce (series : list value) : list value :=
  map (λ v, match to_datetime1 v with
            | Some t => VTime t
            | None => VNull
            end) series.

(** A row after the assignment of line 649. *)
Definition coerce_row (i : nat) (r : row) : row :=
  <[i := match to_datetime1 (cell i r) with
         | Some t => VTime t
         | None => VNull
         end]> r.

(** [timedelta(days=30)] in nanoseconds. *)
Definition timedelta_days (d : Z) : Z := d * 86400 * 1000000000.

(** Lines 648-656. [now] is the value of the one call of
    [datetime.now()] (line 650), a naive time. The call of line 649 may
    raise; the comparisons of lines 651 and 652 raise when the parsed
    column carries a time zone. The result is [df] with its column
    rewritten, [hot_data] and [cold_data]. *)
Definition partition_block (now : Z) (df : DataFrame)
  : ui (DataFrame * DataFrame * DataFrame) :=
  match column_index (py "timestamp") df with
  | Some i =>
      dtype ← lift (to_datetime_dtype (get_column i df));
      let df := set_column i (to_datetime_coerce (get_column i df)) df in
      let cutoff := now - timedelta_days 30 in
      hot_mask ← lift (compare_cutoff dtype (ge_cutoff cutoff)
                                      (get_column i df));
      let hot_data :=
        mkDataFrame (columns df) (boolean_index (rows df) hot_mask) in
      cold_mask ← lift (compare_cutoff dtype (lt_cutoff cutoff)
                                       (get_column i df));
      let cold_data :=
        mkDataFrame (columns df) (boolean_index (rows df) cold_mask) in
      mret (df, hot_data, cold_data)
  | None =>
      emit (st_warning (py "No 'timestamp' column found. Skipping hot/cold data distribution."));;
      mret (df, empty_frame, empty_frame)
  end.

(** The variables of the handler when it reaches its last line. *)
Record locals : Type := mkLocals {
  l_df : DataFrame;
  l_hot_data : DataFrame;
  l_cold_data : DataFrame;
  l_processed_csv : bytes;
  l_compressed : bytes
}.

Definition blen (b : bytes) : Z := Z.of_nat (length b).

(** Lines 617-667, the body of the [try]. *)
Definition handler_body (now : Z) (uploaded : UploadedFile) : ui locals :=
  df ← read_uploaded_file uploaded;
  emit (st_markdown (py "**Original Data Preview:**"));;
  emit (st_dataframe (head df));;
  let '(df, removed_na, removed_dup) := clean_block df in
  let processed_csv := dataframe_to_csv_bytes df in
  let compressed := gzip_compress processed_csv in
  report_block removed_na removed_dup;;
  '(df, hot_data, cold_data) ← partition_block now df;
  emit (st_metric (py "Rows") (MInt (len df)));;
  csv_size ← lift (bytesize_fmt (blen processed_csv));
  emit (st_metric (py "CSV Size") (MStr (py csv_size)));;
  gzip_size ← lift (bytesize_fmt (blen compressed));
  emit (st_metric (py "Gzip Size") (MStr (py gzip_size)));;
  emit (st_markdown (py "**Processed Data Preview:**"));;
  emit (st_dataframe (head df));;
  emit (st_download_button (down_arrow ++ py " Download Processed CSV") processed_csv
                           (py "processed.csv") (py "text/csv"));;
  emit (st_download_button (down_arrow ++ py " Download Compressed Gzip") compressed
                           (py "processed.csv.gz") (py "application/gzip"));;
  mret (mkLocals df hot_data cold_data processed_csv compressed).

(** Lines 614-670: [try: ... except Exception as e: st.error(...)]. *)
Definition upload_handler (now : Z) (uploaded : UploadedFile)
  : ui (option locals) :=
  try_except (handler_body now uploaded)
             (λ e, emit (st_error (py "An error occurred: " ++ py e))).

End Application.

(* ------------------------------------------------------------------ *)
(** ** The cleaning stage as the specification words it                 *)
(* ------------------------------------------------------------------ *)

Module CleanRef.

(** A row is incomplete when at least one of its values is absent. *)
Definition incomplete (r : row) : bool := existsb isna r.

(** Two rows are duplicates when their column values are pairwise
    equal. *)
Fixpoint same_values (r1 r2 : row) : bool :=
  match r1, r2 with
  | [], [] => true
  | v1 :: r1', v2 :: r2' => bool_decide (v1 = v2) && same_values r1' r2'
  | _, _ => false
  end.

(** Removal of duplicates: a row goes when it has the values of a row
    retained before it; the first occurrence stays, in place. The result
    is the retained rows and the number of rows removed. *)
Fixpoint dedup_ref (retained : list row) (rs : list row)
  : list row * nat :=
  match rs with
  | [] => ([], O)
  | r :: rs' =>
      if existsb (same_values r) retained
      then let '(kept, n) := dedup_ref retained rs' in (kept, S n)
      else let '(kept, n) := dedup_ref (retained ++ [r]) rs' in
           (r :: kept, n)
  end.

(** First the incomplete rows go and are counted, then the duplicates
    among the remaining rows go and are counted. *)
Definition clean_ref (df : DataFrame) : DataFrame * Z * Z :=
  let removed := List.filter incomplete (rows df) in
  let remainder := List.filter (λ r, negb (incomplete r)) (rows df) in
  let '(kept, dups) := dedup_ref [] remainder in
  (mkDataFrame (columns df) kept,
   Z.of_nat (length removed), Z.of_nat dups).

End CleanRef.

Import CleanRef.

(* ------------------------------------------------------------------ *)
(** ** The size string as the specification words it                    *)
(* ------------------------------------------------------------------ *)

Module SizeRef.

Definition is_digit (c : ascii) : bool :=
  let n := N_of_ascii c in ((48 <=? n) && (n <=? 57))%N.

Fixpoint string_forall (P : ascii → bool) (s : string) : bool :=
  match s with
  | EmptyString => true
  | String c s' => P c && string_forall P s'
  end.

Definition not_dot (c : ascii) : bool := negb (Ascii.eqb c ".").

(** What follows the first decimal point. *)
Fixpoint after_dot (s : string) : option string :=
  match s with
  | EmptyString => None
  | String c s' => if Ascii.eqb c "." then Some s' else after_dot s'
  end.

(** "Rendered with exactly two decimal places": the decimal point is
    followed by two digits and then by the blank before the unit. *)
Definition has_two_decimals (s : string) : bool :=
  match after_dot s with
  | Some (String d1 (String d2 (String sp _))) =>
      is_digit d1 && is_digit d2 && Ascii.eqb sp " "
  | _ => false
  end.

(** The sentence of the specification about [format_size], at one input:
    after some number [k] of divisions, one per suffix of
    (bytes, K, M, G, T, P), the magnitude is below 1024, and the text has
    two decimals. *)
Definition format_size_claim (n : Z) : Prop :=
  ∃ (k : nat) (s : string),
    (k ≤ 5)%nat
    ∧ Z.abs n < 1024 * 1024 ^ Z.of_nat k
    ∧ bytesize_fmt n = Ok s
    ∧ has_two_decimals s = true.

End SizeRef.

Import SizeRef.

(* ------------------------------------------------------------------ *)
(** ** Document ingestion as the specification words it                 *)
(* ------------------------------------------------------------------ *)

Module IngestRef.

(** What a page gives to the line sequence when "an extraction failure
    degrades to an empty contribution for that unit". *)
Definition page_contribution (page : outcome (option (list N))) : list N :=
  match page with
  | Ok (Some t) => t
  | _ => []
  end.

(** The sentence of the specification about a PDF, at one upload:
    whatever its pages do, ingestion returns the one-column table of the
    lines of the pages' contributions. *)
Definition document_text_claim (L : Libs) (uploaded : UploadedFile)
  : Prop :=
  ∀ pages,
    file_extension uploaded = py "pdf" →
    pdf_pages (content uploaded) = Ok pages →
    run (read_uploaded_file uploaded)
    = ([], Ok (text_frame (concat (map page_contribution pages)))).

End IngestRef.

Import IngestRef.

(* ------------------------------------------------------------------ *)
(** ** The partitioning stage as the specification words it             *)
(* ------------------------------------------------------------------ *)

Module PartitionRef.

(** The sentence of the specification about a table with a [timestamp]
    column all of whose values parse: the stage returns two partitions
    that share no row and whose sizes add up to the size of the table. *)
Definition partition_claim (L : Libs) (now : Z) (df : DataFrame) : Prop :=
  ∀ i,
    column_index (py "timestamp") df = Some i →
    (∀ r, r ∈ rows df → is_Some (to_datetime1 (cell i r))) →
    ∃ df' hot cold,
      run (partition_block now df) = ([], Ok (df', hot, cold))
      ∧ (∀ r, r ∈ rows hot → r ∈ rows cold → False)
      ∧ len hot + len cold = len df.

(** The sentence about a row whose timestamp is absent or does not
    parse: the stage raises nothing and returns two partitions that have,
    together, fewer rows than the table. *)
Definition unparsable_claim (L : Libs) (now : Z) (df : DataFrame) : Prop :=
  ∀ i j r,
    column_index (py "timestamp") df = Some i →
    rows df !! j = Some r →
    to_datetime1 (cell i r) = None →
    ∃ df' hot cold,
      run (partition_block now df) = ([], Ok (df', hot, cold))
      ∧ len hot + len cold < len df.

End PartitionRef.

Import PartitionRef.

(* ------------------------------------------------------------------ *)
(** ** Navigation (lines 499-520)                                       *)
(* ------------------------------------------------------------------ *)

Module Nav.

(** [section_content.keys()], in the order of the dictionary literal
    (lines 60-410). The texts under the keys play no part in the control
    flow; they are the function [text] below. *)
Definition section_names : list (list N) :=
  [py "General"; py "Introduction"; py "Literature Review";
   py "Proposed Solution or Approach"; py "Methodology and Implementation";
   py "Evaluation and Analysis of Trade-offs"; py "Conclusion"].

(** Lines 499-500. The session state is the value stored under
    [selected_section], if there is one. *)
Definition init_state (session : option (list N)) : list N :=
  match session with
  | None => py "General"
  | Some s => s
  end.

(** The loop of lines 506-508: [clicked name] is what [st.button(name)]
    returns in this run. *)
Fixpoint press_buttons (names : list (list N)) (clicked : list N → bool)
         (selected_section : list N) : list N :=
  match names with
  | [] => selected_section
  | section_name :: names' =>
      press_buttons names' clicked
        (if clicked section_name then section_name else selected_section)
  end.

(** [selected] of line 515. *)
Definition navigate (session : option (list N)) (clicked : list N → bool)
  : list N :=
  press_buttons section_names clicked (init_state session).

(** [section_content[selected]] (line 520). *)
Definition section_lookup (text : list N → list N) (selected : list N)
  : outcome (list N) :=
  if decide (selected ∈ section_names) then Ok (text selected)
  else Raise "KeyError".

(** The session state after a series of runs of the script, one click
    pattern per run. *)
Fixpoint runs (session : option (list N)) (clicks : list (list N → bool))
  : option (list N) :=
  match clicks with
  | [] => session
  | clicked :: clicks' => runs (Some (navigate session clicked)) clicks'
  end.

End Nav.

Import Nav.

(* ------------------------------------------------------------------ *)
(** ** Notions used to state further properties                         *)
(* ------------------------------------------------------------------ *)

Module Props.

(** No line boundary in a text. *)
Definition break_free (s : list N) : bool :=
  forallb (λ c, negb (is_linebreak c)) s.

(** No full stop in a text. *)
Definition dot_free (s : list N) : bool :=
  forallb (λ c, negb (c =? 46)%N) s.

(** A list of paragraphs without its last one when that one is empty. *)
Fixpoint without_last_empty (ps : list (list N)) : list (list N) :=
  match ps with
  | [] => []
  | [p] => match p with [] => [] | _ => [p] end
  | p :: rest => p :: without_last_empty rest
  end.

(** The six extensions of the dispatcher. *)
Definition recognized : list (list N) :=
  [py "csv"; py "xlsx"; py "json"; py "txt"; py "pdf"; py "docx"].


(** The widgets that carry the compressed bytes or their size. *)
Definition gzip_widget (e : ui_event) : bool :=
  match e with
  | st_download_button _ _ file_name _ =>
      bool_decide (file_name = py "processed.csv.gz")
  | st_metric label _ => bool_decide (label = py "Gzip Size")
  | _ => false
  end.

(** What the handler leaves apart from the two partitions and the
    compressed bytes. *)
Definition table_and_csv {L : Libs} (r : outcome (option locals))
  : outcome (option (DataFrame * list Byte.byte)) :=
  match r with
  | Ok (Some l) => Ok (Some (l_df l, l_processed_csv l))
  | Ok None => Ok None
  | Raise msg => Raise msg
  | Stop => Stop
  end.

(** The three types read as lines of text. *)
Definition text_like : list (list N) := [py "txt"; py "pdf"; py "docx"].

(** The reader of the file's type raises [msg]. *)
Definition reader_raises {L : Libs} (uploaded : UploadedFile) (msg : string) : Prop :=
  let ext := file_extension uploaded in
  let data := content uploaded in
  (ext = py "csv" ∧ read_csv data = Raise msg)
  ∨ (ext = py "xlsx" ∧ read_excel data = Raise msg)
  ∨ (ext = py "json" ∧ read_json data = Raise msg)
  ∨ (ext = py "txt" ∧ decode_utf8 data = Raise msg)
  ∨ (ext = py "pdf" ∧ pdf_pages data = Raise msg)
  ∨ (ext = py "docx" ∧ docx_paragraphs data = Raise msg).

End Props.

Import Props.

(* ------------------------------------------------------------------ *)
(** ** Inputs on which the program is run                               *)
(* ------------------------------------------------------------------ *)

Module Demo.

(** Stand-ins for the libraries: the tabular readers and the PDF and
    DOCX openers raise, the text decoder reads each byte as a code point,
    the encoders give no bytes, and a numeric cell is a timestamp in
    nanoseconds while a text cell does not parse. *)
Definition libs : Libs := {|
  read_csv := λ _, Raise "read_csv";
  read_excel := λ _, Raise "read_excel";
  read_json := λ _, Raise "read_json";
  decode_utf8 := λ b, Ok (map (λ x, N.of_nat (Byte.to_nat x)) b);
  pdf_pages := λ _, Raise "PdfReader";
  docx_paragraphs := λ _, Raise "Document";
  to_csv_utf8 := λ _, [];
  gzip_compress := λ b, b;
  parse_datetime := λ v, match v with VNum n => Some n | _ => None end;
  to_datetime_dtype := λ _, Ok Naive
|}.

(** The same, with a PDF reader that opens every file as a document of
    two pages: the first has a line of text, the extraction of the second
    raises. *)
Definition failing_page_libs : Libs := {|
  read_csv := λ _, Raise "read_csv";
  read_excel := λ _, Raise "read_excel";
  read_json := λ _, Raise "read_json";
  decode_utf8 := λ b, Ok (map (λ x, N.of_nat (Byte.to_nat x)) b);
  pdf_pages := λ _, Ok [Ok (Some (py "first page")); Raise "cannot extract"];
  docx_paragraphs := λ _, Raise "Document";
  to_csv_utf8 := λ _, [];
  gzip_compress := λ b, b;
  parse_datetime := λ v, match v with VNum n => Some n | _ => None end;
  to_datetime_dtype := λ _, Ok Naive
|}.

Definition scan_pdf : UploadedFile := mkUploaded (py "scan.pdf") [].

(** Scenario 1 of the specification: columns [a], [b]. *)
Definition scenario1 : DataFrame :=
  mkDataFrame [py "a"; py "b"]
              [[VNum 1; VNum 2]; [VNum 1; VNum 2]; [VNum 3; VNull]].

Definition day : Z := 86400 * 1000000000.

(** Scenario 2: evaluation time [100] days after the epoch, one row 45
    days old and one row 2 days old. *)
Definition now2 : Z := 100 * day.

Definition scenario2 : DataFrame :=
  mkDataFrame [py "id"; py "timestamp"]
              [[VNum 1; VNum (55 * day)]; [VNum 2; VNum (98 * day)]].

(** A table whose second timestamp is a text that does not parse. *)
Definition unparsable : DataFrame :=
  mkDataFrame [py "id"; py "timestamp"]
              [[VNum 1; VNum (98 * day)]; [VNum 2; VStr (py "soon")]].

(** The text of a file of three lines, the second one blank. *)
Definition blank_line_text : str := py "a" ++ [10; 10]%N ++ py "b".

(** A text file of those three lines, and a file of an unknown type. *)
Definition notes_txt : UploadedFile :=
  mkUploaded (py "notes.TXT")
             [Byte.x61; Byte.x0a; Byte.x0a; Byte.x62].

Definition report_xml : UploadedFile :=
  mkUploaded (py "Report.v2.XML") [Byte.x3c; Byte.x61; Byte.x2f; Byte.x3e].

(** Libraries whose readers succeed: the CSV reader gives the table of
    scenario 2, the PDF has a page of text, a page without text and
    another page of text, the DOCX has four paragraphs, the last one
    empty; the CSV writer gives two bytes. *)
Definition office_libs : Libs := {|
  read_csv := λ _, Ok scenario2;
  read_excel := λ _, Raise "read_excel";
  read_json := λ _, Raise "read_json";
  decode_utf8 := λ b, Ok (map (λ x, N.of_nat (Byte.to_nat x)) b);
  pdf_pages := λ _, Ok [Ok (Some (py "alpha ")); Ok None; Ok (Some (py "beta"))];
  docx_paragraphs :=
    λ _, Ok [Ok (py "title"); Ok []; Ok (py " body "); Ok []];
  to_csv_utf8 := λ _, [Byte.x61; Byte.x0a];
  gzip_compress := λ b, b;
  parse_datetime := λ v, match v with VNum n => Some n | _ => None end;
  to_datetime_dtype := λ _, Ok Naive
|}.

Definition data_csv : UploadedFile := mkUploaded (py "data.csv") [].

Definition memo_docx : UploadedFile := mkUploaded (py "memo.docx") [].

(** Two timestamps written with the UTC designator, as nanoseconds since
    the epoch, and what a parser makes of the cells of the tables below. *)
Definition may_2024 : list N := py "2024-05-01T00:00:00Z".

Definition march_2024 : list N := py "2024-03-01T00:00:00Z".

Definition parse_zulu (v : value) : option Z :=
  match v with
  | VStr s =>
      if decide (s = may_2024) then Some (19844 * day)
      else if decide (s = march_2024) then Some (19783 * day)
      else None
  | _ => None
  end.

(** Libraries that read a CSV as the table [zulu] and parse its
    timestamps into a column that carries the UTC zone. *)
Definition zulu : DataFrame :=
  mkDataFrame [py "id"; py "timestamp"]
              [[VNum 1; VStr march_2024]; [VNum 2; VStr may_2024]].

Definition zulu_unparsable : DataFrame :=
  mkDataFrame [py "id"; py "timestamp"]
              [[VNum 1; VStr may_2024]; [VNum 2; VStr (py "soon")]].

Definition utc_libs : Libs := {|
  read_csv := λ _, Ok zulu;
  read_excel := λ _, Raise "read_excel";
  read_json := λ _, Raise "read_json";
  decode_utf8 := λ b, Ok (map (λ x, N.of_nat (Byte.to_nat x)) b);
  pdf_pages := λ _, Raise "PdfReader";
  docx_paragraphs := λ _, Raise "Document";
  to_csv_utf8 := λ _, [Byte.x61; Byte.x0a];
  gzip_compress := λ b, b;
  parse_datetime := parse_zulu;
  to_datetime_dtype :=
    λ _, Ok (Aware "Invalid comparison between dtype=datetime64[ns, UTC] and datetime")
|}.

(** The evaluation time of these tables: 6 May 2024. *)
Definition now_zulu : Z := 19849 * day.

(** A click on the third button of the sidebar, and no click. *)
Definition click_review : list N → bool :=
  λ name, bool_decide (name = py "Literature Review").

Definition no_click : list N → bool := λ _, false.

End Demo.

(* ------------------------------------------------------------------ *)
(** ** Masks and filters                                                *)
(* ------------------------------------------------------------------ *)

Section Masks.

Lemma boolean_index_map (f : row → bool) (rs : list row) :
  boolean_index rs (map f rs) = List.filter f rs.
Proof.
  induction rs as [|r rs IH]; simpl; [done|].
  rewrite IH. by destruct (f r).
Qed.

Lemma filter_all (f : row → bool) (rs : list row) :
  (∀ r, r ∈ rs → f r = true) → List.filter f rs = rs.
Proof.
  induction rs as [|r rs IH]; intros H; simpl; [done|].
  rewrite (H r) by apply list_elem_of_here.
  f_equal. apply IH. intros x Hx. apply H. by apply list_elem_of_further.
Qed.

Lemma filter_split_length (f : row → bool) (rs : list row) :
  (length (List.filter f rs)
   + length (List.filter (λ r, negb (f r)) rs) = length rs)%nat.
Proof.
  induction rs as [|r rs IH]; simpl; [done|].
  destruct (f r); simpl; lia.
Qed.

Lemma elem_of_filter_bool (f : row → bool) (rs : list row) (x : row) :
  x ∈ List.filter f rs ↔ x ∈ rs ∧ f x = true.
Proof.
  rewrite !list_elem_of_In. apply List.filter_In.
Qed.

Lemma filter_sublist (f : row → bool) (rs : list row) :
  sublist (List.filter f rs) rs.
Proof.
  induction rs as [|r rs IH]; simpl; [constructor|].
  destruct (f r); by constructor.
Qed.

Lemma notna_all_incomplete (r : row) : notna_all r = negb (incomplete r).
Proof.
  unfold notna_all, incomplete.
  induction r as [|v r IH]; simpl; [done|].
  rewrite IH. by destruct (isna v), (existsb isna r).
Qed.

Lemma dropna_rows (df : DataFrame) :
  rows (dropna df) = List.filter (λ r, negb (incomplete r)) (rows df).
Proof.
  unfold dropna; simpl. rewrite boolean_index_map.
  induction (rows df) as [|r rs IH]; simpl; [done|].
  rewrite notna_all_incomplete, IH. done.
Qed.

Lemma same_values_eq (r1 r2 : row) : same_values r1 r2 = true ↔ r1 = r2.
Proof.
  revert r2. induction r1 as [|v1 r1 IH]; intros [|v2 r2]; simpl;
    try (split; [discriminate|discriminate]); [done|].
  rewrite andb_true_iff, bool_decide_eq_true, IH.
  split; [intros [-> ->]; done | intros [= -> ->]; done].
Qed.

Lemma existsb_same_values (x : row) (l : list row) :
  existsb (same_values x) l = true ↔ x ∈ l.
Proof.
  rewrite existsb_exists. split.
  - intros (y & Hy & Heq). apply same_values_eq in Heq as ->.
    by apply list_elem_of_In.
  - intros Hx. exists x. split; [by apply list_elem_of_In|].
    by apply same_values_eq.
Qed.

End Masks.

Section Dedup.

Lemma dedup_cons (seen : list row) (r : row) (rs : list row) :
  dedup seen (r :: rs)
  = if bool_decide (r ∈ seen) then dedup (r :: seen) rs
    else r :: dedup (r :: seen) rs.
Proof. unfold dedup; simpl. by destruct (bool_decide (r ∈ seen)). Qed.

Lemma drop_duplicates_eq (df : DataFrame) :
  drop_duplicates df = mkDataFrame (columns df) (dedup [] (rows df)).
Proof. done. Qed.

Lemma elem_of_dedup (seen rs : list row) (x : row) :
  x ∈ dedup seen rs ↔ x ∈ rs ∧ x ∉ seen.
Proof.
  revert seen. induction rs as [|r rs IH]; intros seen.
  - unfold dedup; simpl. rewrite elem_of_nil. tauto.
  - rewrite dedup_cons. case_bool_decide as Hr.
    + rewrite IH, not_elem_of_cons, elem_of_cons.
      split; [tauto|]. intros [[->|Hx] Hns]; [done|].
      repeat split; [done| |done]. by intros ->.
    + rewrite !elem_of_cons, IH, not_elem_of_cons.
      split.
      * intros [->|(Hx & _ & Hns)]; split; auto.
      * intros [[->|Hx] Hns]; [by left|].
        destruct (decide (x = r)) as [->|Hne]; [by left|by right].
Qed.

Lemma dedup_NoDup (seen rs : list row) : NoDup (dedup seen rs).
Proof.
  revert seen. induction rs as [|r rs IH]; intros seen.
  - constructor.
  - rewrite dedup_cons. case_bool_decide as Hr; [apply IH|].
    constructor; [|apply IH].
    rewrite elem_of_dedup, not_elem_of_cons. tauto.
Qed.

Lemma dedup_sublist (seen rs : list row) : sublist (dedup seen rs) rs.
Proof.
  revert seen. induction rs as [|r rs IH]; intros seen.
  - constructor.
  - rewrite dedup_cons. case_bool_decide; constructor; apply IH.
Qed.

(** Nothing goes from a list without repetition that avoids [seen]. *)
Lemma dedup_id (seen rs : list row) :
  NoDup rs → (∀ x, x ∈ rs → x ∉ seen) → dedup seen rs = rs.
Proof.
  revert seen. induction rs as [|r rs IH]; intros seen Hnd Hdisj; [done|].
  apply NoDup_cons in Hnd as [Hr Hnd].
  rewrite dedup_cons, bool_decide_eq_false_2 by (apply Hdisj; left).
  f_equal. apply IH; [done|].
  intros x Hx. rewrite not_elem_of_cons. split.
  - intros ->. done.
  - apply Hdisj. by right.
Qed.

(** The library's mask against the specification's traversal: they agree
    as soon as [seen] and [retained] hold the same rows. *)
Lemma dedup_ref_agrees (rs seen retained : list row) :
  (∀ x, x ∈ seen ↔ x ∈ retained) →
  (dedup_ref retained rs).1 = dedup seen rs
  ∧ (length (dedup seen rs) + (dedup_ref retained rs).2 = length rs)%nat.
Proof.
  revert seen retained. induction rs as [|r rs IH]; intros seen retained H.
  - done.
  - rewrite dedup_cons. simpl.
    destruct (existsb (same_values r) retained) eqn:E.
    + apply existsb_same_values in E.
      rewrite bool_decide_eq_true_2 by (by apply H).
      destruct (IH (r :: seen) retained) as [IH1 IH2].
      { intros x. rewrite elem_of_cons, H. split; [|tauto].
        intros [->|]; done. }
      destruct (dedup_ref retained rs) as [kept n]; simpl in *.
      split; [done | lia].
    + assert (r ∉ retained) as Hr.
      { intros Hin. apply existsb_same_values in Hin. congruence. }
      rewrite bool_decide_eq_false_2 by (by rewrite H).
      destruct (IH (r :: seen) (retained ++ [r])) as [IH1 IH2].
      { intros x. rewrite elem_of_cons, elem_of_app, list_elem_of_singleton, H.
        tauto. }
      destruct (dedup_ref (retained ++ [r]) rs) as [kept n]; simpl in *.
      split; [by f_equal | lia].
Qed.

End Dedup.

(* ------------------------------------------------------------------ *)
(** ** The cleaning stage                                               *)
(* ------------------------------------------------------------------ *)

Section Cleaning.

Lemma clean_block_table (df : DataFrame) :
  (clean_block df).1.1
  = mkDataFrame (columns df)
      (dedup [] (List.filter (λ r, negb (incomplete r)) (rows df))).
Proof.
  unfold clean_block; cbn [fst snd].
  by rewrite drop_duplicates_eq, dropna_rows.
Qed.

Lemma clean_block_removed_na (df : DataFrame) :
  (clean_block df).1.2
  = Z.of_nat (length (List.filter incomplete (rows df))).
Proof.
  unfold clean_block, len; cbn [fst snd]. rewrite dropna_rows.
  pose proof (filter_split_length incomplete (rows df)). lia.
Qed.

Lemma clean_block_removed_dup (df : DataFrame) :
  (clean_block df).2
  = Z.of_nat (length (List.filter (λ r, negb (incomplete r)) (rows df)))
    - len (clean_block df).1.1.
Proof.
  rewrite clean_block_table. unfold clean_block, len; cbn [fst snd].
  by rewrite drop_duplicates_eq, dropna_rows.
Qed.

Lemma clean_block_complete (df : DataFrame) (r : row) :
  r ∈ rows (clean_block df).1.1 → incomplete r = false.
Proof.
  rewrite clean_block_table; simpl.
  rewrite elem_of_dedup, elem_of_filter_bool.
  intros [[_ H] _]. by apply negb_true_iff.
Qed.

Lemma clean_block_NoDup (df : DataFrame) : NoDup (rows (clean_block df).1.1).
Proof. rewrite clean_block_table. apply dedup_NoDup. Qed.

End Cleaning.

(** C1. The cleaning stage of the handler is the reference definition of
    the specification: the rows with an absent value go first and are
    counted, then the rows whose values are pairwise equal to those of a row
    retained before them go and are counted. The columns are those of the
    input, the retained rows keep their relative order, every input row is
    retained, counted incomplete or counted duplicate and never two of
    these, the incomplete count is the number of rows with an absent value
    and the duplicate count is taken among the complete rows only. On
    scenario 1 the cleaned table is the single row (1, 2) with counts
    (1, 1). *)
Theorem clean_block_refines_reference (df : DataFrame) :
  clean_block df = clean_ref df
  ∧ (let '(t, removed_na, removed_dup) := clean_block df in
     columns t = columns df
     ∧ sublist (rows t) (rows df)
     ∧ len t + removed_na + removed_dup = len df
     ∧ removed_na = Z.of_nat (length (List.filter incomplete (rows df)))
     ∧ len t + removed_dup
       = Z.of_nat (length (List.filter (λ r, negb (incomplete r)) (rows df))))
  ∧ clean_block Demo.scenario1
    = (mkDataFrame [py "a"; py "b"] [[VNum 1; VNum 2]], 1, 1).
Proof.
  pose proof (clean_block_table df) as Ht.
  pose proof (clean_block_removed_na df) as Hna.
  pose proof (clean_block_removed_dup df) as Hdup.
  pose proof (filter_split_length incomplete (rows df)) as Hsplit.
  split; [|split; [|by vm_compute]];
    destruct (clean_block df) as [[t na] dup]; cbn [fst snd] in *;
    subst t na dup; unfold len in *; cbn [rows columns] in *.
  - unfold clean_ref.
    set (remainder := List.filter (λ r, negb (incomplete r)) (rows df)) in *.
    destruct (dedup_ref_agrees remainder [] []) as [H1 H2]; [done|].
    destruct (dedup_ref [] remainder) as [kept n]; cbn [fst snd] in *.
    subst kept. repeat f_equal. lia.
  - repeat split; [| lia | lia].
    etrans; [apply dedup_sublist | apply filter_sublist].
Qed.

(** C9. Cleaning is idempotent: cleaning the cleaned table removes no
    incomplete row and no duplicate row and returns the same table. *)
Theorem clean_block_idempotent (df : DataFrame) :
  clean_block (clean_block df).1.1 = ((clean_block df).1.1, 0, 0).
Proof.
  pose proof (clean_block_NoDup df) as Hnd.
  pose proof (clean_block_complete df) as Hc.
  destruct (clean_block df).1.1 as [cols rs]; cbn [rows] in *.
  assert (dropna (mkDataFrame cols rs) = mkDataFrame cols rs) as Hdrop.
  { unfold dropna; cbn [rows columns]. rewrite boolean_index_map.
    rewrite filter_all; [done|].
    intros r Hr. rewrite notna_all_incomplete, (Hc r Hr). done. }
  assert (drop_duplicates (mkDataFrame cols rs) = mkDataFrame cols rs)
    as Hdd.
  { rewrite drop_duplicates_eq; cbn [rows columns].
    rewrite dedup_id; [done | done |]. intros x _. apply not_elem_of_nil. }
  unfold clean_block. rewrite Hdrop, Hdd.
  repeat f_equal; lia.
Qed.



(* ------------------------------------------------------------------ *)
(** ** [bytesize_fmt]                                                   *)
(* ------------------------------------------------------------------ *)

Section Sizes.

Lemma round_to_53_exact (a : Z) : 0 ≤ a < 2 ^ 53 → round_to_53 a = a.
Proof.
  intros [H0 H]. unfold round_to_53.
  assert (Z.log2 a < 53) as Hlog.
  { destruct (decide (a = 0)) as [->|Hne]; [done|].
    apply Z.log2_lt_pow2; lia. }
  destruct (Z.leb_spec (Z.log2 a + 1) 53); [done | lia].
Qed.

Lemma round_to_53_bounds (a : Z) :
  2 ^ 53 ≤ a →
  2 ^ 53 ≤ round_to_53 a ≤ 2 ^ (Z.log2 a + 1).
Proof.
  intros H. unfold round_to_53.
  assert (0 < a) as Hpos by lia.
  assert (53 ≤ Z.log2 a) as Hlog by (apply Z.log2_le_pow2; lia).
  destruct (Z.log2_spec a Hpos) as [Hlo Hhi].
  destruct (Z.leb_spec (Z.log2 a + 1) 53) as [Hle|_]; [lia|].
  set (sh := Z.log2 a + 1 - 53).
  assert (0 < sh) as Hsh by (unfold sh; lia).
  assert (0 < 2 ^ sh) as Hp by (apply Z.pow_pos_nonneg; lia).
  assert (2 ^ Z.log2 a = 2 ^ 52 * 2 ^ sh) as E1.
  { rewrite <- Z.pow_add_r by lia. f_equal. unfold sh. lia. }
  assert (2 ^ (Z.log2 a + 1) = 2 ^ 53 * 2 ^ sh) as E2.
  { rewrite <- Z.pow_add_r by lia. f_equal. unfold sh. lia. }
  replace (Z.succ (Z.log2 a)) with (Z.log2 a + 1) in Hhi by lia.
  assert (2 ^ 52 ≤ a / 2 ^ sh) as Hq1.
  { apply Z.div_le_lower_bound; lia. }
  assert (a / 2 ^ sh < 2 ^ 53) as Hq2.
  { apply Z.div_lt_upper_bound; lia. }
  set (q := a / 2 ^ sh) in *.
  set (q' := if a mod 2 ^ sh <? 2 ^ (sh - 1) then q
             else if 2 ^ (sh - 1) <? a mod 2 ^ sh then q + 1
             else if Z.even q then q else q + 1).
  assert (q ≤ q' ≤ q + 1) as Hq'.
  { unfold q'. repeat case_match; lia. }
  rewrite E2. split.
  - assert (2 ^ 52 * 2 ^ sh ≤ q' * 2 ^ sh) by (apply Z.mul_le_mono_nonneg_r; lia).
    assert (2 ^ 53 ≤ 2 ^ 52 * 2 ^ sh); [|lia].
    assert (2 ≤ 2 ^ sh).
    { change 2 with (2 ^ 1) at 1. apply Z.pow_le_mono_r; lia. }
    change (2 ^ 53) with (2 ^ 52 * 2). apply Z.mul_le_mono_nonneg_l; lia.
  - apply Z.mul_le_mono_nonneg_r; lia.
Qed.

(** Below [2^1023] the conversion to a float succeeds; it is exact below
    [2^53] and stays at or above [2^53] from there on. *)
Lemma float_of_int_ok (n : Z) :
  Z.abs n < 2 ^ 1023 →
  ∃ m, float_of_int n = Ok m
       ∧ (Z.abs n < 2 ^ 53 → m = n)
       ∧ (2 ^ 53 ≤ Z.abs n → 2 ^ 53 ≤ Z.abs m).
Proof.
  intros Hn. unfold float_of_int.
  destruct (Z.lt_ge_cases (Z.abs n) (2 ^ 53)) as [Hs|Hl].
  - rewrite round_to_53_exact by lia.
    destruct (Z.leb_spec (2 ^ 1024) (Z.abs n)) as [Hbig|_].
    { assert (2 ^ 1023 < 2 ^ 1024) by (apply Z.pow_lt_mono_r; lia). lia. }
    eexists; split; [done|]. split; [intros _; lia | lia].
  - pose proof (round_to_53_bounds (Z.abs n) Hl) as [Hlo Hhi].
    assert (Z.log2 (Z.abs n) < 1023) as Hlog.
    { apply Z.log2_lt_pow2; lia. }
    assert (2 ^ (Z.log2 (Z.abs n) + 1) ≤ 2 ^ 1023) as Hp.
    { apply Z.pow_le_mono_r; lia. }
    assert (2 ^ 1023 < 2 ^ 1024) by (apply Z.pow_lt_mono_r; lia).
    destruct (Z.leb_spec (2 ^ 1024) (round_to_53 (Z.abs n))); [lia|].
    eexists; split; [done|]. split; [lia|]. intros _.
    rewrite Z.abs_mul. destruct n; simpl in *; lia.
Qed.

Lemma pretty_N_char_digit (x : N) : is_digit (pretty_N_char x) = true.
Proof. unfold pretty_N_char. by repeat case_match. Qed.

Lemma digit_not_dot (c : ascii) : is_digit c = true → not_dot c = true.
Proof.
  unfold not_dot. destruct (Ascii.eqb_spec c ".") as [->|]; [|done].
  by vm_compute.
Qed.

Lemma pretty_N_go_digits (x : N) (s : string) :
  string_forall is_digit s = true →
  string_forall is_digit (pretty_N_go x s) = true.
Proof.
  revert s. induction (N.lt_wf_0 x) as [x _ IH]; intros s Hs.
  destruct (decide (x = 0)%N) as [->|Hne]; [by rewrite pretty_N_go_0|].
  rewrite pretty_N_go_step by lia.
  apply IH; [apply N.div_lt; lia|].
  simpl. by rewrite pretty_N_char_digit, Hs.
Qed.

Lemma pretty_N_digits (x : N) : string_forall is_digit (pretty x) = true.
Proof.
  unfold pretty, pretty_N. case_decide; [done|].
  by apply pretty_N_go_digits.
Qed.

Lemma digit_char_digit (d : Z) : 0 ≤ d < 10 → is_digit (digit_char d) = true.
Proof.
  intros H.
  assert (d = 0 ∨ d = 1 ∨ d = 2 ∨ d = 3 ∨ d = 4 ∨ d = 5 ∨ d = 6 ∨ d = 7
          ∨ d = 8 ∨ d = 9) as Hd by lia.
  by repeat destruct Hd as [->|Hd]; [..|subst d].
Qed.

(** The decimal point search passes over a prefix of digits. *)
Lemma after_dot_digits (a b c : string) :
  string_forall is_digit a = true →
  after_dot ((a +:+ b) +:+ c) = after_dot (b +:+ c).
Proof.
  induction a as [|x a IH]; simpl; [done|].
  intros [Hx Ha]%andb_true_iff.
  apply digit_not_dot in Hx. unfold not_dot in Hx.
  destruct (Ascii.eqb x "."); [done|]. by apply IH.
Qed.

Lemma format_fixed_two_decimals (m den : Z) (rest : string) :
  has_two_decimals (format_fixed 2 m den +:+ String " " rest) = true.
Proof.
  unfold has_two_decimals, format_fixed.
  set (q' := if _ <? den then _ else _).
  set (ip := pretty (Z.to_N (q' / 10 ^ Z.of_nat 2))).
  set (fp := q' mod 10 ^ Z.of_nat 2).
  assert (after_dot ((ip +:+ "." +:+ frac_digits 2 fp) +:+ String " " rest)
          = Some (frac_digits 2 fp +:+ String " " rest)) as E.
  { rewrite after_dot_digits by apply pretty_N_digits. done. }
  assert (∀ sign : string, sign = "" ∨ sign = "-" →
          after_dot ((sign +:+ ip +:+ "." +:+ frac_digits 2 fp)
                       +:+ String " " rest)
          = Some (frac_digits 2 fp +:+ String " " rest)) as Hsign.
  { intros sign [-> | ->]; simpl; exact E. }
  rewrite Hsign by (destruct (m <? 0); auto).
  cbn [frac_digits]. cbv [String.append].
  rewrite !digit_char_digit; [done | |];
    apply Z.mod_pos_bound; lia.
Qed.

Lemma abs_lt_1024_float (m : Z) (k : nat) :
  abs_lt_1024 (PyFloat m k) = bool_decide (Z.abs m < 1024 ^ Z.of_nat (S k)).
Proof.
  unfold abs_lt_1024.
  replace (1024 ^ Z.of_nat (S k)) with (1024 * 1024 ^ Z.of_nat k).
  - destruct (Z.ltb_spec (Z.abs m) (1024 * 1024 ^ Z.of_nat k));
      [by rewrite bool_decide_eq_true_2 | by rewrite bool_decide_eq_false_2; [|lia]].
  - rewrite Nat2Z.inj_succ, Z.pow_succ_r by lia. done.
Qed.

(** One turn of the loop on a float. *)
Lemma bytesize_loop_float (unit : string) (rest : list string)
      (m : Z) (k : nat) (suffix : string) :
  bytesize_loop (unit :: rest) (PyFloat m k) suffix
  = if bool_decide (Z.abs m < 1024 ^ Z.of_nat (S k))
    then Ok (format_fixed 2 m (1024 ^ Z.of_nat k)
               +:+ " " +:+ unit +:+ suffix)%string
    else bytesize_loop rest (PyFloat m (S k)) suffix.
Proof.
  cbn [bytesize_loop]. rewrite abs_lt_1024_float.
  by case_bool_decide.
Qed.

(** The first turn, on the int. *)
Lemma bytesize_fmt_unfold (n m : Z) :
  float_of_int n = Ok m →
  bytesize_fmt n
  = if bool_decide (Z.abs n < 1024)
    then Ok (format_fixed 2 m 1 +:+ " B")%string
    else bytesize_loop ["K"; "M"; "G"; "T"]%string (PyFloat m 1) "B"%string.
Proof.
  intros Hm. unfold bytesize_fmt. cbn [bytesize_loop abs_lt_1024].
  destruct (Z.ltb_spec (Z.abs n) 1024).
  - rewrite bool_decide_eq_true_2 by done.
    cbn [format_f]. rewrite Hm. done.
  - rewrite bool_decide_eq_false_2 by lia.
    cbn [truediv_1024]. rewrite Hm. done.
Qed.

(** Below [1024^5]: the first suffix at which the magnitude is below
    1024, and two decimals. *)
Lemma bytesize_fmt_small (n : Z) :
  Z.abs n < 1024 ^ 5 →
  ∃ k : nat,
    (k ≤ 4)%nat
    ∧ Z.abs n < 1024 ^ Z.of_nat (S k)
    ∧ (k = 0%nat ∨ 1024 ^ Z.of_nat k ≤ Z.abs n)
    ∧ let s := (format_fixed 2 n (1024 ^ Z.of_nat k) +:+ " "
                  +:+ nth k [""; "K"; "M"; "G"; "T"] "" +:+ "B")%string in
      bytesize_fmt n = Ok s ∧ has_two_decimals s = true.
Proof.
  intros Hlt.
  assert (Z.abs n < 2 ^ 1023) as Hn.
  { assert (1024 ^ 5 < 2 ^ 1023); [|lia].
    change (1024 ^ 5) with (2 ^ 50). apply Z.pow_lt_mono_r; lia. }
  destruct (float_of_int_ok n Hn) as (m & Hm & Hexact & _).
  rewrite Hexact in Hm by lia.
  rewrite (bytesize_fmt_unfold n n Hm).
  case_bool_decide as H0.
  { exists 0%nat. repeat split; [lia | done | by left |].
    apply (format_fixed_two_decimals n 1 "B"). }
  rewrite bytesize_loop_float. case_bool_decide as H1.
  { exists 1%nat. repeat split; [lia | done | right; lia |].
    apply (format_fixed_two_decimals n _ "KB"). }
  rewrite bytesize_loop_float. case_bool_decide as H2.
  { exists 2%nat. repeat split; [lia | done | right; lia |].
    apply (format_fixed_two_decimals n _ "MB"). }
  rewrite bytesize_loop_float. case_bool_decide as H3.
  { exists 3%nat. repeat split; [lia | done | right; lia |].
    apply (format_fixed_two_decimals n _ "GB"). }
  rewrite bytesize_loop_float. case_bool_decide as H4.
  { exists 4%nat. repeat split; [lia | done | right; lia |].
    apply (format_fixed_two_decimals n _ "TB"). }
  exfalso. apply H4. exact Hlt.
Qed.

(** From [1024^5] on: five divisions and the last suffix. *)
Lemma bytesize_fmt_large (n : Z) :
  Z.abs n < 2 ^ 1023 →
  1024 ^ 5 ≤ Z.abs n →
  ∃ (m : Z) (d : nat),
    float_of_int n = Ok m
    ∧ bytesize_fmt n = Ok (format_fixed d m (1024 ^ 5) +:+ " PB")%string.
Proof.
  intros Hn Hge.
  destruct (float_of_int_ok n Hn) as (m & Hm & Hexact & Hlarge).
  exists m, 1%nat. split; [done|].
  rewrite (bytesize_fmt_unfold n m Hm).
  assert (1024 ^ 5 ≤ Z.abs m) as Hm5.
  { destruct (Z.lt_ge_cases (Z.abs n) (2 ^ 53)) as [Hs|Hl].
    - by rewrite Hexact.
    - specialize (Hlarge Hl). etrans; [|exact Hlarge]. done. }
  assert (∀ k : nat, (k ≤ 5)%nat → 1024 ^ Z.of_nat k ≤ Z.abs m) as Hk.
  { intros k Hk. etrans; [|exact Hm5].
    apply Z.pow_le_mono_r; lia. }
  rewrite bool_decide_eq_false_2 by lia.
  do 4 (rewrite bytesize_loop_float;
        rewrite bool_decide_eq_false_2
          by (apply Z.le_ngt, Hk; lia)).
  done.
Qed.

Lemma bytesize_fmt_returns (n : Z) :
  Z.abs n < 2 ^ 1023 → ∃ s, bytesize_fmt n = Ok s.
Proof.
  intros Hn. destruct (Z.lt_ge_cases (Z.abs n) (1024 ^ 5)) as [Hs|Hl].
  - destruct (bytesize_fmt_small n Hs) as (k & _ & _ & _ & Hk & _). eauto.
  - destruct (bytesize_fmt_large n Hn Hl) as (m' & d & _ & Hk). eauto.
Qed.

End Sizes.

(** C5 (as amended). For an integer byte count that converts to a float
    (magnitude below [2^1023]; zero and the negative counts are among
    them) [bytesize_fmt] returns a text. It divides by 1024 while the
    magnitude is at least 1024, at most five times. Below [1024^5] it stops
    after [k <= 4] divisions, at the first point where the magnitude is
    below 1024, takes the [k]-th of the suffixes B, KB, MB, GB, TB and
    renders [n / 1024^k] with exactly two decimals. From [1024^5] on the
    suffix is PB after exactly five divisions, whether or not the magnitude
    has fallen below 1024. [bytesize_fmt 2048] is "2.00 KB" and
    [bytesize_fmt 0] is "0.00 B". *)
Theorem bytesize_fmt_units (n : Z) :
  Z.abs n < 2 ^ 1023 →
  (∃ s, bytesize_fmt n = Ok s)
  ∧ (Z.abs n < 1024 ^ 5 →
     ∃ k : nat,
       (k ≤ 4)%nat
       ∧ Z.abs n < 1024 ^ Z.of_nat (S k)
       ∧ (k = 0%nat ∨ 1024 ^ Z.of_nat k ≤ Z.abs n)
       ∧ let s := (format_fixed 2 n (1024 ^ Z.of_nat k) +:+ " "
                     +:+ nth k [""; "K"; "M"; "G"; "T"] "" +:+ "B")%string in
         bytesize_fmt n = Ok s ∧ has_two_decimals s = true)
  ∧ (1024 ^ 5 ≤ Z.abs n →
     ∃ (m : Z) (d : nat),
       float_of_int n = Ok m
       ∧ bytesize_fmt n = Ok (format_fixed d m (1024 ^ 5) +:+ " PB")%string)
  ∧ bytesize_fmt 2048 = Ok "2.00 KB"%string
  ∧ bytesize_fmt 0 = Ok "0.00 B"%string.
Proof.
  intros Hn.
  split; [by apply bytesize_fmt_returns|].
  split; [apply bytesize_fmt_small|].
  split; [by apply bytesize_fmt_large|].
  by vm_compute.
Qed.

Lemma bytesize_fmt_units_witness :
  ∃ s, bytesize_fmt 1536000 = Ok s ∧ has_two_decimals s = true.
Proof.
  destruct (bytesize_fmt_units 1536000) as (_ & Hsmall & _).
  - vm_compute. reflexivity.
  - destruct Hsmall as (k & _ & _ & _ & Hs & H2).
    + vm_compute. reflexivity.
    + eexists. split; [exact Hs | exact H2].
Defined.

(** C5 as stated fails at [2^60] bytes: the suffixes are used up before
    the magnitude falls below 1024, and the text has one decimal. *)
Lemma bytesize_fmt_exabyte_counterexample :
  bytesize_fmt (2 ^ 60) = Ok "1024.0 PB"%string
  ∧ (∀ k : nat, (k ≤ 5)%nat → ¬ Z.abs (2 ^ 60) < 1024 * 1024 ^ Z.of_nat k)
  ∧ has_two_decimals "1024.0 PB" = false
  ∧ ¬ format_size_claim (2 ^ 60).
Proof.
  split; [by vm_compute|].
  split.
  { intros k Hk.
    assert (1024 ^ Z.of_nat k ≤ 1024 ^ 5) by (apply Z.pow_le_mono_r; lia).
    change (Z.abs (2 ^ 60)) with (1024 * 1024 ^ 5). lia. }
  split; [by vm_compute|].
  intros (k & s & Hk & Hlt & Hs & H2).
  assert (bytesize_fmt (2 ^ 60) = Ok "1024.0 PB"%string) as E by (by vm_compute).
  rewrite E in Hs. injection Hs as <-. by vm_compute in H2.
Qed.

(* ------------------------------------------------------------------ *)
(** ** The hot/cold split                                               *)
(* ------------------------------------------------------------------ *)

Section Partition.

Context {L : Libs}.

Lemma cell_insert (i : nat) (v : value) (r : row) :
  cell i (<[i:=v]> r) = if decide (i < length r)%nat then v else VNull.
Proof.
  unfold cell. case_decide as Hi.
  - by rewrite list_lookup_insert_eq.
  - rewrite list_insert_ge by lia.
    by rewrite (lookup_ge_None_2 r i) by lia.
Qed.

Lemma cell_short (i : nat) (r : row) :
  ¬ (i < length r)%nat → cell i r = VNull.
Proof. intros Hi. unfold cell. by rewrite lookup_ge_None_2 by lia. Qed.

(** The rewritten cell is the timestamp read from the cell, or [NaT]. *)
Lemma cell_coerce_row (i : nat) (r : row) :
  cell i (coerce_row i r)
  = match to_datetime1 (cell i r) with
    | Some t => VTime t
    | None => VNull
    end.
Proof.
  unfold coerce_row. rewrite cell_insert. case_decide as Hi; [done|].
  by rewrite (cell_short i r Hi).
Qed.

Lemma set_column_coerce (i : nat) (df : DataFrame) :
  set_column i (to_datetime_coerce (get_column i df)) df
  = mkDataFrame (columns df) (map (coerce_row i) (rows df)).
Proof.
  unfold set_column, to_datetime_coerce, get_column. f_equal.
  induction (rows df) as [|r rs IH]; [done|].
  simpl. by rewrite IH.
Qed.

(** The block on a table that has the column, at position [i]. *)
Lemma partition_block_some (now : Z) (df : DataFrame) (i : nat) :
  column_index (py "timestamp") df = Some i →
  to_datetime_dtype (get_column i df) = Ok Naive →
  run (partition_block now df)
  = ([], Ok (mkDataFrame (columns df) (map (coerce_row i) (rows df)),
             mkDataFrame (columns df)
               (List.filter (λ r, ge_cutoff (now - timedelta_days 30)
                                            (cell i r))
                            (map (coerce_row i) (rows df))),
             mkDataFrame (columns df)
               (List.filter (λ r, lt_cutoff (now - timedelta_days 30)
                                            (cell i r))
                            (map (coerce_row i) (rows df))))).
Proof.
  intros Hi Hd. unfold run, partition_block. rewrite Hi.
  unfold mbind, ui_bind, bind, lift. rewrite Hd. cbn [compare_cutoff].
  rewrite set_column_coerce. unfold get_column; cbn [rows columns].
  rewrite <- !boolean_index_map, !List.map_map. done.
Qed.

(** The block when the call of line 649 raises, and when the parsed
    column carries a time zone. *)
Lemma partition_block_raises (now : Z) (df : DataFrame) (i : nat)
      (msg : string) (evs : list ui_event) :
  column_index (py "timestamp") df = Some i →
  to_datetime_dtype (get_column i df) = Raise msg
  ∨ to_datetime_dtype (get_column i df) = Ok (Aware msg) →
  partition_block now df evs = (evs, Raise msg).
Proof.
  intros Hi Hd. unfold partition_block. rewrite Hi.
  unfold mbind, ui_bind, bind, lift. by destruct Hd as [-> | ->].
Qed.

Lemma partition_block_stops (now : Z) (df : DataFrame) (i : nat)
      (evs : list ui_event) :
  column_index (py "timestamp") df = Some i →
  to_datetime_dtype (get_column i df) = Stop →
  partition_block now df evs = (evs, Stop).
Proof.
  intros Hi Hd. unfold partition_block. rewrite Hi.
  unfold mbind, ui_bind, bind, lift. by rewrite Hd.
Qed.

Lemma ge_lt_exclusive (c : Z) (v : value) :
  ge_cutoff c v = true → lt_cutoff c v = true → False.
Proof. destruct v; simpl; try done. lia. Qed.

Lemma two_filters_length (f g : row → bool) (rs : list row) :
  (∀ r, r ∈ rs → f r = true → g r = true → False) →
  (length (List.filter f rs) + length (List.filter g rs) ≤ length rs)%nat
  ∧ ((∀ r, r ∈ rs → f r = true ∨ g r = true) →
     (length (List.filter f rs) + length (List.filter g rs)
      = length rs)%nat)
  ∧ ((∃ r, r ∈ rs ∧ f r = false ∧ g r = false) →
     (length (List.filter f rs) + length (List.filter g rs)
      < length rs)%nat).
Proof.
  induction rs as [|r rs IH]; intros Hex.
  - simpl. split; [lia|]. split; [done|].
    intros (r & Hr & _). by apply elem_of_nil in Hr.
  - destruct IH as (IH1 & IH2 & IH3).
    { intros x Hx. apply Hex. by right. }
    pose proof (Hex r (list_elem_of_here _ _)) as Hr.
    simpl. destruct (f r) eqn:Ef, (g r) eqn:Eg; simpl.
    + by destruct Hr.
    + split; [lia|]. split.
      * intros Hall. rewrite <- IH2; [lia|].
        intros x Hx. apply Hall. by right.
      * intros (x & [->|Hx]%elem_of_cons & Hf & Hg); [congruence|].
        assert (length (List.filter f rs) + length (List.filter g rs)
                < length rs)%nat by (apply IH3; eauto). lia.
    + split; [lia|]. split.
      * intros Hall. rewrite <- IH2; [lia|].
        intros x Hx. apply Hall. by right.
      * intros (x & [->|Hx]%elem_of_cons & Hf & Hg); [congruence|].
        assert (length (List.filter f rs) + length (List.filter g rs)
                < length rs)%nat by (apply IH3; eauto). lia.
    + split; [lia|]. split.
      * intros Hall. destruct (Hall r (list_elem_of_here _ _)); congruence.
      * intros _. lia.
Qed.

Lemma lookup_map {A B} (f : A → B) (l : list A) (j : nat) :
  map f l !! j = f <$> (l !! j).
Proof.
  revert j. induction l as [|x l IH]; intros [|j]; simpl; auto.
Qed.

Lemma elem_of_map {A B} (f : A → B) (l : list A) (x : A) :
  x ∈ l → f x ∈ map f l.
Proof. rewrite !list_elem_of_In. apply in_map. Qed.

Lemma elem_of_map_inv {A B} (f : A → B) (l : list A) (y : B) :
  y ∈ map f l → ∃ x, y = f x ∧ x ∈ l.
Proof.
  rewrite list_elem_of_In, in_map_iff. intros (x & <- & Hx).
  exists x. by rewrite list_elem_of_In.
Qed.

End Partition.

(** C2 (as amended). On a table with a [timestamp] column all of whose
    values parse and whose parsed column is time-zone naive, the block
    judges every row against the one cutoff [now - 30 days]: the row goes
    to the hot partition, and not to the cold one, when its timestamp is
    at or after the cutoff, and to the cold partition, and not to the hot
    one, when it is before. No row is in both partitions, both keep the
    order of the table, and their sizes add up to the size of the table.
    With a row 45 days old and a row 2 days old, the hot partition is the
    2-day-old row and the cold partition the 45-day-old row. When the
    parsing call raises, or the parsed column carries a time zone, the
    block raises and there is no partition. *)
Theorem partition_hot_cold {L : Libs} (now : Z) (df : DataFrame) (i : nat) :
  column_index (py "timestamp") df = Some i →
  to_datetime_dtype (get_column i df) = Ok Naive →
  (∀ r, r ∈ rows df → is_Some (to_datetime1 (cell i r))) →
  (∃ df' hot cold,
     run (partition_block now df) = ([], Ok (df', hot, cold))
     ∧ (∀ j r, rows df !! j = Some r →
          ∃ t, to_datetime1 (cell i r) = Some t
               ∧ rows df' !! j = Some (<[i:=VTime t]> r)
               ∧ (now - timedelta_days 30 ≤ t →
                  <[i:=VTime t]> r ∈ rows hot ∧ <[i:=VTime t]> r ∉ rows cold)
               ∧ (t < now - timedelta_days 30 →
                  <[i:=VTime t]> r ∈ rows cold ∧ <[i:=VTime t]> r ∉ rows hot))
     ∧ (∀ r, r ∈ rows hot → r ∈ rows cold → False)
     ∧ sublist (rows hot) (rows df') ∧ sublist (rows cold) (rows df')
     ∧ len hot + len cold = len df)
  ∧ (∀ df2 i2 msg,
       column_index (py "timestamp") df2 = Some i2 →
       to_datetime_dtype (get_column i2 df2) = Raise msg
       ∨ to_datetime_dtype (get_column i2 df2) = Ok (Aware msg) →
       run (partition_block now df2) = ([], Raise msg))
  ∧ run (partition_block (L:=Demo.libs) Demo.now2 Demo.scenario2)
    = ([], Ok (mkDataFrame [py "id"; py "timestamp"]
                 [[VNum 1; VTime (55 * Demo.day)];
                  [VNum 2; VTime (98 * Demo.day)]],
               mkDataFrame [py "id"; py "timestamp"]
                 [[VNum 2; VTime (98 * Demo.day)]],
               mkDataFrame [py "id"; py "timestamp"]
                 [[VNum 1; VTime (55 * Demo.day)]])).
Proof.
  intros Hi Hd Hparse.
  split; [|split; [|by vm_compute]];
    [|intros df2 i2 msg Hi2 Hd2; by apply partition_block_raises with i2].
  rewrite (partition_block_some now df i Hi Hd).
  eexists _, _, _. split; [reflexivity|]. cbn [rows].
  set (cutoff := now - timedelta_days 30).
  assert (∀ r t, to_datetime1 (cell i r) = Some t →
                 coerce_row i r = <[i:=VTime t]> r
                 ∧ cell i (<[i:=VTime t]> r) = VTime t) as Hrow.
  { intros r t Ht. assert (coerce_row i r = <[i:=VTime t]> r) as E.
    { unfold coerce_row. by rewrite Ht. }
    split; [done|]. rewrite <- E, cell_coerce_row, Ht. done. }
  split; [|split; [|split; [|split]]].
  - intros j r Hj.
    destruct (Hparse r) as [t Ht]; [by eapply list_elem_of_lookup_2|].
    destruct (Hrow r t Ht) as [E Ec].
    exists t. split; [done|]. split.
    { rewrite lookup_map, Hj. simpl. by rewrite E. }
    assert (<[i:=VTime t]> r ∈ map (coerce_row i) (rows df)) as Hin.
    { rewrite <- E. apply elem_of_map. by eapply list_elem_of_lookup_2. }
    rewrite !elem_of_filter_bool, Ec. simpl.
    split; intros Hc; (split; [split; [done|] | intros [_ Hf]]); lia.
  - intros r [_ Hge]%elem_of_filter_bool [_ Hlt]%elem_of_filter_bool.
    by eapply ge_lt_exclusive.
  - apply filter_sublist.
  - apply filter_sublist.
  - unfold len; cbn [rows].
    destruct (two_filters_length
                (λ r, ge_cutoff cutoff (cell i r))
                (λ r, lt_cutoff cutoff (cell i r))
                (map (coerce_row i) (rows df))) as (_ & Hsum & _).
    { intros r _. apply ge_lt_exclusive. }
    rewrite length_map in Hsum. rewrite <- Hsum; [lia|].
    intros r' (r & -> & Hr)%elem_of_map_inv.
    destruct (Hparse r Hr) as [t Ht].
    rewrite cell_coerce_row, Ht. simpl.
    destruct (Z.leb_spec cutoff t); [by left | right; lia].
Qed.

Lemma partition_hot_cold_witness :
  ∃ hot cold,
    (run (partition_block (L:=Demo.libs) Demo.now2 Demo.scenario2)).2
    = Ok (hot.1, hot.2, cold)
    ∧ len hot.2 + len cold = 2.
Proof.
  destruct (partition_hot_cold (L:=Demo.libs) Demo.now2 Demo.scenario2 1)
    as [(df' & hot & cold & Hrun & _ & _ & _ & _ & Hlen) _].
  - vm_compute. reflexivity.
  - reflexivity.
  - intros r Hr.
    apply elem_of_cons in Hr as [->|Hr]; [by eexists|].
    apply list_elem_of_singleton in Hr as ->. by eexists.
  - exists (df', hot), cold. rewrite Hrun. split; [reflexivity | exact Hlen].
Defined.

(** C2 as stated fails on a column of timestamps written with the UTC
    designator: every value parses, the parsed column carries the zone,
    and its comparison with the naive cutoff raises, so the block returns
    no partition and the handler shows the generic error after the two
    reports. *)
Lemma partition_aware_column_counterexample :
  (∀ r, r ∈ rows Demo.zulu →
        is_Some (to_datetime1 (L:=Demo.utc_libs) (cell 1 r)))
  ∧ run (partition_block (L:=Demo.utc_libs) Demo.now_zulu Demo.zulu)
    = ([], Raise "Invalid comparison between dtype=datetime64[ns, UTC] and datetime")
  ∧ run (upload_handler (L:=Demo.utc_libs) Demo.now_zulu Demo.data_csv)
    = ([st_markdown (py "**Original Data Preview:**");
        st_dataframe Demo.zulu;
        st_success (check_mark ++ py " No incomplete rows found.");
        st_success (check_mark ++ py " No duplicate rows found.");
        st_error (py "An error occurred: Invalid comparison between dtype=datetime64[ns, UTC] and datetime")],
       Ok None)
  ∧ ¬ partition_claim Demo.utc_libs Demo.now_zulu Demo.zulu.
Proof.
  assert (∀ r, r ∈ rows Demo.zulu →
               is_Some (to_datetime1 (L:=Demo.utc_libs) (cell 1 r))) as Hp.
  { intros r Hr.
    apply elem_of_cons in Hr as [->|Hr]; [by eexists|].
    apply list_elem_of_singleton in Hr as ->. by eexists. }
  split; [exact Hp|]. split; [by vm_compute|]. split; [by vm_compute|].
  intros Hclaim.
  destruct (Hclaim 1%nat eq_refl Hp) as (df' & hot & cold & Hrun & _).
  by vm_compute in Hrun.
Qed.

(** C3 (as amended). When the parsing call returns a time-zone naive
    column, a row whose timestamp is absent or does not parse raises
    nothing: the block returns, the row's timestamp becomes the missing
    value, the row is in neither partition, and the two partitions
    together have fewer rows than the table. *)
Theorem partition_unparsable_excluded {L : Libs} (now : Z) (df : DataFrame)
        (i j : nat) (r : list value) :
  column_index (py "timestamp") df = Some i →
  to_datetime_dtype (get_column i df) = Ok Naive →
  rows df !! j = Some r →
  cell i r = VNull
  ∨ ((∀ t, cell i r ≠ VTime t) ∧ parse_datetime (cell i r) = None) →
  ∃ df' hot cold,
    run (partition_block now df) = ([], Ok (df', hot, cold))
    ∧ rows df' !! j = Some (<[i:=VNull]> r)
    ∧ (<[i:=VNull]> r ∉ rows hot)
    ∧ (<[i:=VNull]> r ∉ rows cold)
    ∧ len hot + len cold < len df.
Proof.
  intros Hi Hd Hj Hbad.
  assert (to_datetime1 (cell i r) = None) as Hnone.
  { destruct Hbad as [->|[Hnt Hp]]; [done|].
    unfold to_datetime1. destruct (cell i r) eqn:Ev; try done.
    by destruct (Hnt t). }
  rewrite (partition_block_some now df i Hi Hd).
  eexists _, _, _. split; [reflexivity|]. cbn [rows].
  set (cutoff := now - timedelta_days 30).
  assert (coerce_row i r = <[i:=VNull]> r) as E.
  { unfold coerce_row. by rewrite Hnone. }
  assert (cell i (<[i:=VNull]> r) = VNull) as Ec.
  { rewrite cell_insert. by case_decide. }
  split; [|split; [|split]].
  - rewrite lookup_map, Hj. simpl. by rewrite E.
  - rewrite elem_of_filter_bool, Ec. simpl. by intros [_ ?].
  - rewrite elem_of_filter_bool, Ec. simpl. by intros [_ ?].
  - unfold len; cbn [rows].
    destruct (two_filters_length
                (λ r, ge_cutoff cutoff (cell i r))
                (λ r, lt_cutoff cutoff (cell i r))
                (map (coerce_row i) (rows df))) as (_ & _ & Hlt).
    { intros x _. apply ge_lt_exclusive. }
    rewrite length_map in Hlt.
    assert (length (List.filter (λ r, ge_cutoff cutoff (cell i r))
                                (map (coerce_row i) (rows df)))
            + length (List.filter (λ r, lt_cutoff cutoff (cell i r))
                                  (map (coerce_row i) (rows df)))
            < length (rows df))%nat; [|lia].
    apply Hlt. exists (<[i:=VNull]> r). rewrite Ec. split; [|done].
    rewrite <- E. apply elem_of_map. by eapply list_elem_of_lookup_2.
Qed.

Lemma partition_unparsable_excluded_witness :
  ∃ df' hot cold,
    run (partition_block (L:=Demo.libs) Demo.now2 Demo.unparsable)
    = ([], Ok (df', hot, cold))
    ∧ ([VNum 2; VNull] ∉ rows hot)
    ∧ ([VNum 2; VNull] ∉ rows cold)
    ∧ len hot + len cold < 2.
Proof.
  destruct (partition_unparsable_excluded (L:=Demo.libs) Demo.now2
              Demo.unparsable 1 1 [VNum 2; VStr (py "soon")])
    as (df' & hot & cold & Hrun & _ & Hh & Hc & Hlen).
  - vm_compute. reflexivity.
  - reflexivity.
  - reflexivity.
  - right. split; [intros t; discriminate | reflexivity].
  - exists df', hot, cold. repeat split; [exact Hrun | exact Hh | exact Hc | exact Hlen].
Defined.

(** C3 as stated fails on a column where a text that does not parse
    stands next to a timestamp written with the UTC designator: the
    parsed column carries the zone and the comparison with the naive
    cutoff raises, so there are no partitions to count. *)
Lemma unparsable_next_to_aware_counterexample :
  to_datetime1 (L:=Demo.utc_libs) (cell 1 [VNum 2; VStr (py "soon")]) = None
  ∧ run (partition_block (L:=Demo.utc_libs) Demo.now_zulu
                         Demo.zulu_unparsable)
    = ([], Raise "Invalid comparison between dtype=datetime64[ns, UTC] and datetime")
  ∧ ¬ unparsable_claim Demo.utc_libs Demo.now_zulu Demo.zulu_unparsable.
Proof.
  split; [reflexivity|]. split; [by vm_compute|].
  intros Hclaim.
  destruct (Hclaim 1%nat 1%nat [VNum 2; VStr (py "soon")]
                   eq_refl eq_refl eq_refl)
    as (df' & hot & cold & Hrun & _).
  by vm_compute in Hrun.
Qed.

(* ------------------------------------------------------------------ *)
(** ** The handler                                                      *)
(* ------------------------------------------------------------------ *)

Section Handler.

Context {L : Libs}.

(** The two reports only add widgets. *)
Lemma report_block_events (removed_na removed_dup : Z)
      (evs : list ui_event) :
  report_block removed_na removed_dup evs
  = (evs ++ (run (report_block removed_na removed_dup)).1, Ok ()).
Proof.
  unfold run, report_block, mbind, ui_bind, bind, emit.
  destruct (0 <? removed_na), (0 <? removed_dup);
    by rewrite <- app_assoc.
Qed.

(** The block on a table without the column. *)
Lemma partition_block_none (now : Z) (df : DataFrame)
      (evs : list ui_event) :
  column_index (py "timestamp") df = None →
  partition_block now df evs
  = (evs ++ [st_warning (py "No 'timestamp' column found. Skipping hot/cold data distribution.")],
     Ok (df, empty_frame, empty_frame)).
Proof. intros Hi. unfold partition_block. by rewrite Hi. Qed.

Lemma bytesize_fmt_blen (b : list Byte.byte) :
  Z.of_nat (length b) < 2 ^ 63 → ∃ s, bytesize_fmt (blen b) = Ok s.
Proof.
  intros Hb. apply bytesize_fmt_returns. unfold blen.
  assert (2 ^ 63 < 2 ^ 1023) by (apply Z.pow_lt_mono_r; lia). lia.
Qed.

Lemma read_unsupported (uploaded : UploadedFile) :
  file_extension uploaded
    ∉ [py "csv"; py "xlsx"; py "json"; py "txt"; py "pdf"; py "docx"] →
  run (read_uploaded_file uploaded)
  = ([st_error (py "Unsupported file type: ." ++ file_extension uploaded)],
     Stop).
Proof.
  intros Hext. unfold run, read_uploaded_file.
  repeat (case_decide;
          [exfalso; apply Hext;
           match goal with E : file_extension _ = _ |- _ => rewrite E end;
           apply (bool_decide_unpack _); by vm_compute|]).
  done.
Qed.

End Handler.

(** C4. When the cleaned table has no [timestamp] column the block does
    not fail: it shows the warning that the hot/cold distribution is
    skipped and leaves both partitions empty, so neither of them is the
    whole table. The handler goes on to the end: the row count, the two
    sizes and the two downloads are those of the full cleaned table. *)
Theorem partition_skipped_without_timestamp {L : Libs} (now : Z)
        (uploaded : UploadedFile) (df : DataFrame) :
  run (read_uploaded_file uploaded) = ([], Ok df) →
  column_index (py "timestamp") (clean_block df).1.1 = None →
  blen (dataframe_to_csv_bytes (clean_block df).1.1) < 2 ^ 63 →
  blen (gzip_compress (dataframe_to_csv_bytes (clean_block df).1.1)) < 2 ^ 63 →
  let cleaned := (clean_block df).1.1 in
  let processed_csv := dataframe_to_csv_bytes cleaned in
  let compressed := gzip_compress processed_csv in
  let warning := st_warning (py "No 'timestamp' column found. Skipping hot/cold data distribution.") in
  run (partition_block now cleaned)
  = ([warning], Ok (cleaned, empty_frame, empty_frame))
  ∧ (rows cleaned ≠ [] →
     rows empty_frame ≠ rows cleaned)
  ∧ ∃ csv_size gzip_size,
      bytesize_fmt (blen processed_csv) = Ok csv_size
      ∧ bytesize_fmt (blen compressed) = Ok gzip_size
      ∧ run (upload_handler now uploaded)
        = ([st_markdown (py "**Original Data Preview:**");
            st_dataframe (head df)]
           ++ (run (report_block (clean_block df).1.2 (clean_block df).2)).1
           ++ [warning;
               st_metric (py "Rows") (MInt (len cleaned));
               st_metric (py "CSV Size") (MStr (py csv_size));
               st_metric (py "Gzip Size") (MStr (py gzip_size));
               st_markdown (py "**Processed Data Preview:**");
               st_dataframe (head cleaned);
               st_download_button (down_arrow ++ py " Download Processed CSV")
                 processed_csv (py "processed.csv") (py "text/csv");
               st_download_button (down_arrow ++ py " Download Compressed Gzip")
                 compressed (py "processed.csv.gz") (py "application/gzip")],
           Ok (Some (mkLocals cleaned empty_frame empty_frame
                              processed_csv compressed))).
Proof.
  intros Hread Hcol Hcsv Hgz cleaned processed_csv compressed warning.
  split; [|split].
  - unfold run. by rewrite partition_block_none.
  - intros Hne E. by rewrite <- E in Hne.
  - destruct (bytesize_fmt_blen processed_csv Hcsv) as [csv_size Hs1].
    destruct (bytesize_fmt_blen compressed Hgz) as [gzip_size Hs2].
    exists csv_size, gzip_size. split; [done|]. split; [done|].
    unfold run in *.
    unfold upload_handler, try_except, handler_body.
    unfold mbind at 1. unfold ui_bind at 1. unfold bind at 1.
    rewrite Hread.
    subst cleaned processed_csv compressed.
    destruct (clean_block df) as [[cleaned na] dup]; cbn [fst snd] in *.
    unfold mbind, ui_bind, bind, emit, lift, mret, ui_ret, ret.
    rewrite report_block_events, partition_block_none by done.
    rewrite Hs1, Hs2.
    rewrite <- !app_assoc. done.
Qed.

Lemma partition_skipped_without_timestamp_witness :
  ∃ evs loc,
    run (upload_handler (L:=Demo.libs) Demo.now2 Demo.notes_txt)
    = (evs, Ok (Some loc))
    ∧ l_hot_data loc = empty_frame ∧ l_cold_data loc = empty_frame.
Proof.
  destruct (partition_skipped_without_timestamp (L:=Demo.libs) Demo.now2
              Demo.notes_txt (text_frame Demo.blank_line_text))
    as (_ & _ & s1 & s2 & _ & _ & Hrun).
  - vm_compute. reflexivity.
  - vm_compute. reflexivity.
  - vm_compute. reflexivity.
  - vm_compute. reflexivity.
  - eexists _, _. split; [exact Hrun|]. split; reflexivity.
Defined.

(** C7. A file whose extension, lower-cased, is none of csv, xlsx, json,
    txt, pdf, docx stops the run at the dispatcher: the page shows the
    unsupported-type error and nothing else, so no cleaning report and no
    download, and the handler has no result. *)
Theorem unsupported_format_stops {L : Libs} (now : Z)
        (uploaded : UploadedFile) :
  file_extension uploaded
    ∉ [py "csv"; py "xlsx"; py "json"; py "txt"; py "pdf"; py "docx"] →
  let error :=
    st_error (py "Unsupported file type: ." ++ file_extension uploaded) in
  run (read_uploaded_file uploaded) = ([error], Stop)
  ∧ run (upload_handler now uploaded) = ([error], Stop)
  ∧ ∀ label data file_name mime,
      st_download_button label data file_name mime
        ∉ (run (upload_handler now uploaded)).1.
Proof.
  intros Hext error.
  pose proof (read_unsupported uploaded Hext) as Hread.
  assert (run (upload_handler now uploaded) = ([error], Stop)) as Hrun.
  { unfold run in *.
    unfold upload_handler, try_except, handler_body.
    unfold mbind at 1. unfold ui_bind at 1. unfold bind at 1.
    by rewrite Hread. }
  split; [done|]. split; [done|].
  intros label data file_name mime. rewrite Hrun; cbn [fst].
  intros Hin. apply list_elem_of_singleton in Hin. discriminate.
Qed.

Lemma unsupported_format_stops_witness :
  run (upload_handler (L:=Demo.libs) Demo.now2 Demo.report_xml)
  = ([st_error (py "Unsupported file type: .xml")], Stop).
Proof.
  destruct (unsupported_format_stops (L:=Demo.libs) Demo.now2 Demo.report_xml)
    as (_ & Hrun & _).
  - intros Hin. apply (bool_decide_pack _) in Hin. by vm_compute in Hin.
  - exact Hrun.
Defined.

(* ------------------------------------------------------------------ *)
(** ** Text-like ingestion                                              *)
(* ------------------------------------------------------------------ *)

Section Lines.

Lemma lstrip_split (s : list N) :
  ∃ pre, s = pre ++ lstrip s ∧ forallb isspace pre = true.
Proof.
  induction s as [|c s (pre & E & Hpre)].
  - by exists [].
  - simpl. destruct (isspace c) eqn:Hc.
    + exists (c :: pre). simpl. rewrite Hc, Hpre. split; [by f_equal|done].
    + by exists [].
Qed.

Lemma lstrip_head (s t : list N) (c : N) :
  lstrip s = c :: t → isspace c = false.
Proof.
  induction s as [|x s IH]; simpl; [done|].
  destruct (isspace x) eqn:Hx; [done|]. by intros [= <- _].
Qed.

(** A text that ends in a character that is not white keeps it. *)
Lemma lstrip_snoc (s : list N) (c : N) :
  isspace c = false → lstrip (s ++ [c]) = lstrip s ++ [c].
Proof.
  intros Hc. induction s as [|x s IH]; simpl.
  - by rewrite Hc.
  - by destruct (isspace x).
Qed.

Lemma rstrip_split (s : list N) :
  ∃ post, s = rstrip s ++ post ∧ forallb isspace post = true.
Proof.
  unfold rstrip. destruct (lstrip_split (rev s)) as (pre & E & Hpre).
  exists (rev pre). split.
  - rewrite <- rev_app_distr, <- E. by rewrite rev_involutive.
  - rewrite forallb_forall in *. intros x Hx. apply Hpre.
    by apply in_rev.
Qed.

Lemma rstrip_last (s t : list N) (c : N) :
  rstrip s = t ++ [c] → isspace c = false.
Proof.
  unfold rstrip. intros E.
  apply (f_equal (@rev N)) in E.
  rewrite rev_involutive, rev_app_distr in E. simpl in E.
  by eapply lstrip_head.
Qed.

Lemma rstrip_cons (s : list N) (c : N) :
  isspace c = false → rstrip (c :: s) = c :: rstrip s.
Proof.
  intros Hc. unfold rstrip. simpl.
  rewrite lstrip_snoc by done. rewrite rev_app_distr. done.
Qed.

(** [strip] gives the text between the white margins. *)
Lemma strip_spec (s : list N) :
  (∃ pre post, s = pre ++ strip s ++ post
               ∧ forallb isspace pre = true
               ∧ forallb isspace post = true)
  ∧ (∀ c t, strip s = c :: t → isspace c = false)
  ∧ (∀ c t, strip s = t ++ [c] → isspace c = false).
Proof.
  unfold strip. split; [|split].
  - destruct (lstrip_split s) as (pre & E1 & Hpre).
    destruct (rstrip_split (lstrip s)) as (post & E2 & Hpost).
    exists pre, post. split; [|done]. by rewrite <- E2.
  - intros c t E. destruct (lstrip s) as [|x u] eqn:El; [done|].
    pose proof (lstrip_head _ _ _ El) as Hx.
    rewrite rstrip_cons in E by done. by injection E as <- _.
  - intros c t E. by eapply rstrip_last.
Qed.

Lemma splitlines_go_no_break (after_cr : bool) (cur s line : list N) :
  forallb (λ c, negb (is_linebreak c)) cur = true →
  line ∈ splitlines_go after_cr cur s →
  forallb (λ c, negb (is_linebreak c)) line = true.
Proof.
  revert after_cr cur. induction s as [|c s IH]; intros after_cr cur Hcur.
  - simpl. assert (forallb (λ c, negb (is_linebreak c)) (rev cur) = true)
      as Hrev.
    { rewrite forallb_forall in *. intros x Hx. apply Hcur.
      by apply in_rev. }
    destruct cur; [by intros ?%elem_of_nil|].
    by intros ->%list_elem_of_singleton.
  - simpl. destruct (after_cr && (c =? 10)%N); [by apply IH|].
    destruct (is_linebreak c) eqn:Hc.
    + intros [->|Hin]%elem_of_cons.
      * rewrite forallb_forall in *. intros x Hx. apply Hcur.
        by apply in_rev.
      * by eapply (IH _ []).
    + apply IH. simpl. by rewrite Hc.
Qed.

(** The table of a text: one column, one row per line, the trimmed
    line in it. *)
Lemma text_frame_spec (text_content : list N) :
  columns (text_frame text_content) = [py "text_content"]
  ∧ length (rows (text_frame text_content))
    = length (splitlines text_content)
  ∧ (∀ j line, splitlines text_content !! j = Some line →
       rows (text_frame text_content) !! j = Some [VStr (strip line)])
  ∧ (∀ r, r ∈ rows (text_frame text_content) →
       ∃ line, line ∈ splitlines text_content ∧ r = [VStr (strip line)]).
Proof.
  unfold text_frame; cbn [rows columns].
  split; [done|]. split; [by rewrite length_map|]. split.
  - intros j line Hj. by rewrite lookup_map, Hj.
  - intros r (line & -> & Hl)%elem_of_map_inv. eauto.
Qed.

End Lines.

Section Ingestion.

Context {L : Libs}.

(** Pages that return: the loop adds each page's text, nothing for a
    page without text. *)
Lemma pdf_text_ok (acc : list N) (pages : list (outcome (option (list N)))) :
  (∀ p, p ∈ pages → ∃ t, p = Ok t) →
  pdf_text acc pages = Ok (acc ++ concat (map page_contribution pages)).
Proof.
  revert acc. induction pages as [|p pages IH]; intros acc Hok; simpl.
  - by rewrite app_nil_r.
  - destruct (Hok p) as [t ->]; [by left|]. simpl.
    rewrite IH by (intros q Hq; apply Hok; by right).
    rewrite <- app_assoc. by destruct t as [[|c t]|].
Qed.

(** The first page that raises ends the loop with its exception. *)
Lemma pdf_text_raise (acc : list N) (msg : string)
      (before after : list (outcome (option (list N)))) :
  (∀ p, p ∈ before → ∃ t, p = Ok t) →
  pdf_text acc (before ++ Raise msg :: after) = Raise msg.
Proof.
  revert acc. induction before as [|p before IH]; intros acc Hok; simpl.
  - done.
  - destruct (Hok p) as [t ->]; [by left|]. simpl.
    apply IH. intros q Hq. apply Hok. by right.
Qed.

Lemma para_texts_ok (texts : list (list N)) :
  para_texts (map Ok texts) = Ok texts.
Proof.
  induction texts as [|t texts IH]; simpl; [done|]. by rewrite IH.
Qed.

Lemma para_texts_raise (msg : string) (texts : list (list N))
      (after : list (outcome (list N))) :
  para_texts (map Ok texts ++ Raise msg :: after) = Raise msg.
Proof.
  induction texts as [|t texts IH]; simpl; [done|]. by rewrite IH.
Qed.

Ltac dispatch Hext :=
  unfold run, read_uploaded_file; rewrite Hext;
  repeat (case_decide;
          [match goal with
           | E : py _ = py _ |- _ => vm_compute in E; discriminate E
           end|]);
  case_decide; [|done].

Lemma read_txt (uploaded : UploadedFile) :
  file_extension uploaded = py "txt" →
  run (read_uploaded_file uploaded)
  = match decode_utf8 (content uploaded) with
    | Ok text_content => ([], Ok (text_frame text_content))
    | Raise msg => ([], Raise msg)
    | Stop => ([], Stop)
    end.
Proof.
  intros Hext. dispatch Hext.
  unfold mbind, ui_bind, bind, lift.
  by destruct (decode_utf8 (content uploaded)).
Qed.

Lemma read_pdf (uploaded : UploadedFile)
      (pages : list (outcome (option (list N)))) :
  file_extension uploaded = py "pdf" →
  pdf_pages (content uploaded) = Ok pages →
  run (read_uploaded_file uploaded)
  = match pdf_text [] pages with
    | Ok text_content => ([], Ok (text_frame text_content))
    | Raise msg => ([], Raise msg)
    | Stop => ([], Stop)
    end.
Proof.
  intros Hext Hpages. dispatch Hext.
  unfold mbind, ui_bind, bind, lift. rewrite Hpages.
  by destruct (pdf_text [] pages).
Qed.

Lemma read_docx (uploaded : UploadedFile)
      (paras : list (outcome (list N))) :
  file_extension uploaded = py "docx" →
  docx_paragraphs (content uploaded) = Ok paras →
  run (read_uploaded_file uploaded)
  = match para_texts paras with
    | Ok texts => ([], Ok (text_frame (join_nl texts)))
    | Raise msg => ([], Raise msg)
    | Stop => ([], Stop)
    end.
Proof.
  intros Hext Hparas. dispatch Hext.
  unfold mbind, ui_bind, bind, lift. rewrite Hparas.
  by destruct (para_texts paras).
Qed.

(** An exception out of the dispatcher ends the handler with the one
    generic error. *)
Lemma handler_read_raise (now : Z) (uploaded : UploadedFile)
      (msg : string) :
  run (read_uploaded_file uploaded) = ([], Raise msg) →
  run (upload_handler now uploaded)
  = ([st_error (py "An error occurred: " ++ py msg)], Ok None).
Proof.
  intros Hread. unfold run in *.
  unfold upload_handler, try_except, handler_body.
  unfold mbind at 1. unfold ui_bind at 1. unfold bind at 1.
  by rewrite Hread.
Qed.

End Ingestion.

(** C8 (as amended). A text file, a PDF and a DOCX are turned into the
    table of one column [text_content] with one row per line of the
    extracted text, in order, each row holding the line without its white
    margins; no line holds a line boundary. For a PDF the extracted text
    is the concatenation of the pages' texts, a page whose extraction
    returns nothing giving the empty text; for a DOCX it is the
    paragraphs' texts joined by line feeds. An exception raised by the
    extraction of a page or of a paragraph is not absorbed: ingestion ends
    with it, and the handler shows its generic error and no table. *)
Theorem text_like_ingestion {L : Libs} (now : Z) (uploaded : UploadedFile) :
  (file_extension uploaded = py "txt" →
   ∀ text_content,
     decode_utf8 (content uploaded) = Ok text_content →
     run (read_uploaded_file uploaded) = ([], Ok (text_frame text_content)))
  ∧ (file_extension uploaded = py "pdf" →
     ∀ pages,
       pdf_pages (content uploaded) = Ok pages →
       ((∀ p, p ∈ pages → ∃ t, p = Ok t) →
        run (read_uploaded_file uploaded)
        = ([], Ok (text_frame (concat (map page_contribution pages)))))
       ∧ (∀ before msg after,
            pages = before ++ Raise msg :: after →
            (∀ p, p ∈ before → ∃ t, p = Ok t) →
            run (read_uploaded_file uploaded) = ([], Raise msg)
            ∧ run (upload_handler now uploaded)
              = ([st_error (py "An error occurred: " ++ py msg)], Ok None)))
  ∧ (file_extension uploaded = py "docx" →
     ∀ paras,
       docx_paragraphs (content uploaded) = Ok paras →
       (∀ texts,
          paras = map Ok texts →
          run (read_uploaded_file uploaded)
          = ([], Ok (text_frame (join_nl texts))))
       ∧ (∀ texts msg after,
            paras = map Ok texts ++ Raise msg :: after →
            run (read_uploaded_file uploaded) = ([], Raise msg)
            ∧ run (upload_handler now uploaded)
              = ([st_error (py "An error occurred: " ++ py msg)], Ok None)))
  ∧ (∀ text_content,
       columns (text_frame text_content) = [py "text_content"]
       ∧ length (rows (text_frame text_content))
         = length (splitlines text_content)
       ∧ (∀ j line, splitlines text_content !! j = Some line →
            rows (text_frame text_content) !! j = Some [VStr (strip line)])
       ∧ (∀ line, line ∈ splitlines text_content →
            forallb (λ c, negb (is_linebreak c)) line = true))
  ∧ (∀ line,
       (∃ pre post, line = pre ++ strip line ++ post
                    ∧ forallb isspace pre = true
                    ∧ forallb isspace post = true)
       ∧ (∀ c t, strip line = c :: t → isspace c = false)
       ∧ (∀ c t, strip line = t ++ [c] → isspace c = false)).
Proof.
  split; [|split; [|split; [|split]]].
  - intros Hext text_content Hdec. by rewrite read_txt, Hdec.
  - intros Hext pages Hpages. split.
    + intros Hok. rewrite (read_pdf uploaded pages) by done.
      by rewrite pdf_text_ok.
    + intros before msg after -> Hok.
      assert (run (read_uploaded_file uploaded) = ([], Raise msg)) as Hread.
      { rewrite (read_pdf uploaded _ Hext Hpages).
        by rewrite pdf_text_raise. }
      split; [done|]. by apply handler_read_raise.
  - intros Hext paras Hparas. split.
    + intros texts ->. rewrite (read_docx uploaded _ Hext Hparas).
      by rewrite para_texts_ok.
    + intros texts msg after ->.
      assert (run (read_uploaded_file uploaded) = ([], Raise msg)) as Hread.
      { rewrite (read_docx uploaded _ Hext Hparas).
        by rewrite para_texts_raise. }
      split; [done|]. by apply handler_read_raise.
  - intros text_content.
    destruct (text_frame_spec text_content) as (Hc & Hl & Hr & _).
    split; [done|]. split; [done|]. split; [done|].
    intros line Hline. by eapply (splitlines_go_no_break false []).
  - apply strip_spec.
Qed.

Lemma text_like_ingestion_witness :
  run (read_uploaded_file (L:=Demo.libs) Demo.notes_txt)
  = ([], Ok (mkDataFrame [py "text_content"]
               [[VStr (py "a")]; [VStr []]; [VStr (py "b")]])).
Proof.
  destruct (text_like_ingestion (L:=Demo.libs) Demo.now2 Demo.notes_txt)
    as (Htxt & _).
  rewrite (Htxt eq_refl Demo.blank_line_text eq_refl).
  reflexivity.
Defined.

(** C8 as stated fails on a PDF whose second page cannot be extracted:
    the exception leaves the dispatcher, no table is built and the handler
    shows the generic error. *)
Lemma pdf_page_failure_aborts :
  run (upload_handler (L:=Demo.failing_page_libs) Demo.now2 Demo.scan_pdf)
  = ([st_error (py "An error occurred: cannot extract")], Ok None)
  ∧ ¬ document_text_claim Demo.failing_page_libs Demo.scan_pdf.
Proof.
  split; [by vm_compute|].
  intros Hclaim.
  specialize (Hclaim _ eq_refl eq_refl).
  by vm_compute in Hclaim.
Qed.

(* ------------------------------------------------------------------ *)
(** ** Further properties: names, lines and margins                     *)
(* ------------------------------------------------------------------ *)

Section MoreLines.

Lemma split_dot_go_nonempty (cur s : list N) : split_dot_go cur s ≠ [].
Proof.
  revert cur. induction s as [|c s IH]; intros cur; simpl; [done|].
  by destruct (c =? 46)%N.
Qed.

Lemma last_cons_nonempty {A} (x d : A) (l : list A) :
  l ≠ [] → List.last (x :: l) d = List.last l d.
Proof. by destruct l. Qed.

Lemma split_dot_go_dot_free (cur s : list N) :
  dot_free s = true → split_dot_go cur s = [rev cur ++ s].
Proof.
  revert cur. induction s as [|c s IH]; intros cur; simpl.
  - by rewrite app_nil_r.
  - intros [Hc Hs]%andb_true_iff. apply negb_true_iff in Hc. rewrite Hc.
    rewrite IH by done. simpl. by rewrite <- app_assoc.
Qed.

Lemma split_dot_go_last (cur stem ext : list N) :
  dot_free ext = true →
  List.last (split_dot_go cur (stem ++ 46%N :: ext)) [] = ext.
Proof.
  intros Hext. revert cur. induction stem as [|c stem IH]; intros cur; simpl.
  - by rewrite (split_dot_go_dot_free [] ext Hext).
  - destruct (c =? 46)%N; [|apply IH].
    rewrite last_cons_nonempty by apply split_dot_go_nonempty. apply IH.
Qed.

Lemma lstrip_all_space (s : list N) :
  forallb isspace s = true → lstrip s = [].
Proof.
  induction s as [|c s IH]; simpl; [done|].
  intros [Hc Hs]%andb_true_iff. rewrite Hc. by apply IH.
Qed.

Lemma lstrip_fixed (s t : list N) (c : N) :
  isspace c = false → lstrip (c :: t) = c :: t.
Proof. intros Hc. simpl. by rewrite Hc. Qed.

Lemma splitlines_go_break_free (cur p rest : list N) :
  break_free p = true →
  splitlines_go false cur (p ++ rest) = splitlines_go false (rev p ++ cur) rest.
Proof.
  revert cur. induction p as [|c p IH]; intros cur; simpl; [done|].
  intros [Hc Hp]%andb_true_iff. apply negb_true_iff in Hc. rewrite Hc.
  rewrite IH by done. by rewrite <- app_assoc.
Qed.

Lemma splitlines_break_free (s : list N) :
  break_free s = true → s ≠ [] → splitlines s = [s].
Proof.
  intros Hs Hne. unfold splitlines.
  rewrite <- (app_nil_r s) at 1. rewrite splitlines_go_break_free by done.
  rewrite app_nil_r. simpl.
  destruct (rev s) eqn:E.
  - apply (f_equal (@rev N)) in E. rewrite rev_involutive in E. done.
  - by rewrite <- E, rev_involutive.
Qed.

Lemma splitlines_join_nl (ps : list (list N)) :
  (∀ p, p ∈ ps → break_free p = true) →
  splitlines (join_nl ps) = without_last_empty ps.
Proof.
  unfold splitlines. induction ps as [|p ps IH]; intros Hps; [done|].
  assert (break_free p = true) as Hp by (apply Hps; left).
  destruct ps as [|q ps].
  - simpl. rewrite <- (app_nil_r p) at 1.
    rewrite splitlines_go_break_free by done. rewrite app_nil_r. simpl.
    destruct p as [|c p]; [done|].
    destruct (rev (c :: p)) eqn:E.
    + apply (f_equal (@rev N)) in E. rewrite rev_involutive in E. done.
    + by rewrite <- E, rev_involutive.
  - change (join_nl (p :: q :: ps)) with (p ++ 10%N :: join_nl (q :: ps)).
    rewrite splitlines_go_break_free by done. rewrite app_nil_r.
    change (without_last_empty (p :: q :: ps))
      with (p :: without_last_empty (q :: ps)).
    cbn [splitlines_go]. change (is_linebreak 10) with true.
    cbn [andb]. rewrite rev_involutive.
    change (10 =? 13)%N with false. f_equal.
    apply IH. intros x Hx. apply Hps. by right.
Qed.

Lemma splitlines_go_concat (after_cr : bool) (cur s : list N) :
  concat (splitlines_go after_cr cur s)
  = rev cur ++ List.filter (λ c, negb (is_linebreak c)) s.
Proof.
  revert after_cr cur. induction s as [|c s IH]; intros after_cr cur.
  - simpl. rewrite app_nil_r. destruct cur; [done|].
    simpl. by rewrite app_nil_r.
  - cbn [splitlines_go List.filter].
    destruct (after_cr && (c =? 10)%N) eqn:Ecr.
    + apply andb_true_iff in Ecr as [_ ->%N.eqb_eq].
      change (is_linebreak 10) with true. cbn [negb]. apply IH.
    + destruct (is_linebreak c) eqn:Hc; cbn [negb].
      * cbn [concat]. by rewrite IH.
      * rewrite IH. simpl. by rewrite <- app_assoc.
Qed.

End MoreLines.

(** X1. The extension is what follows the last full stop of the name,
    lower-cased, whatever full stops come before; a name without a full
    stop is its own extension. *)
Theorem file_extension_last_field (stem ext : list N)
        (content : list Byte.byte) :
  dot_free ext = true →
  file_extension (mkUploaded (stem ++ 46%N :: ext) content) = lower ext
  ∧ file_extension (mkUploaded ext content) = lower ext.
Proof.
  intros Hext. unfold file_extension, split_dot; cbn [name]. split.
  - by rewrite split_dot_go_last.
  - by rewrite split_dot_go_dot_free.
Qed.

Lemma file_extension_last_field_witness :
  file_extension (mkUploaded (py "backup.2024.tar" ++ 46%N :: py "GZ") [])
  = py "gz"
  ∧ file_extension (mkUploaded (py "GZ") []) = py "gz".
Proof.
  apply (file_extension_last_field (py "backup.2024.tar") (py "GZ") []).
  reflexivity.
Defined.

(** X2. [strip] does nothing to a text already stripped, and the texts it
    empties are exactly the texts made of white space only. *)
Theorem strip_idempotent_and_blank (s : list N) :
  strip (strip s) = strip s
  ∧ (strip s = [] ↔ forallb isspace s = true).
Proof.
  destruct (strip_spec s) as ((pre & post & E & Hpre & Hpost) & Hhead & Hlast).
  split.
  - destruct (strip s) as [|c t] eqn:Es; [done|].
    pose proof (Hhead c t eq_refl) as Hc.
    unfold strip at 1. rewrite (lstrip_fixed (c :: t) t c Hc).
    unfold rstrip.
    destruct (rev (c :: t)) as [|c' t'] eqn:Er.
    { apply (f_equal (@rev N)) in Er. rewrite rev_involutive in Er. done. }
    assert (c :: t = rev t' ++ [c']) as Et.
    { rewrite <- (rev_involutive (c :: t)), Er. done. }
    rewrite (lstrip_fixed (c' :: t') t' c' (Hlast c' (rev t') Et)).
    by rewrite <- Er, rev_involutive.
  - split.
    + intros Es. rewrite Es in E. simpl in E. subst s.
      rewrite forallb_app. by rewrite Hpre, Hpost.
    + intros Hs. unfold strip. by rewrite lstrip_all_space.
Qed.

Lemma strip_idempotent_and_blank_witness :
  strip (py "   ") = []
  ∧ strip (strip (py "  a b ")) = strip (py "  a b ").
Proof.
  destruct (strip_idempotent_and_blank (py "   ")) as [_ [_ Hblank]].
  destruct (strip_idempotent_and_blank (py "  a b ")) as [Hidem _].
  split; [apply Hblank; reflexivity | exact Hidem].
Defined.

(** X3. Splitting a text into lines loses the line boundaries and nothing
    else: the lines, put end to end, are the text without its boundary
    characters. *)
Theorem splitlines_keeps_text (s : list N) :
  concat (splitlines s) = List.filter (λ c, negb (is_linebreak c)) s.
Proof. unfold splitlines. by rewrite splitlines_go_concat. Qed.

(** X4. A DOCX whose paragraphs hold no line boundary gives one row per
    paragraph, in order and trimmed, except that an empty last paragraph
    gives no row. *)
Theorem docx_rows_are_paragraphs {L : Libs} (uploaded : UploadedFile)
        (ps : list (list N)) :
  file_extension uploaded = py "docx" →
  docx_paragraphs (content uploaded) = Ok (map Ok ps) →
  (∀ p, p ∈ ps → break_free p = true) →
  run (read_uploaded_file uploaded)
  = ([], Ok (mkDataFrame [py "text_content"]
               (map (λ p, [VStr (strip p)]) (without_last_empty ps)))).
Proof.
  intros Hext Hparas Hps.
  rewrite (read_docx uploaded _ Hext Hparas), para_texts_ok.
  unfold text_frame. by rewrite splitlines_join_nl.
Qed.

Lemma docx_rows_are_paragraphs_witness :
  run (read_uploaded_file (L:=Demo.office_libs) Demo.memo_docx)
  = ([], Ok (mkDataFrame [py "text_content"]
               [[VStr (py "title")]; [VStr []]; [VStr (py "body")]])).
Proof.
  rewrite (docx_rows_are_paragraphs (L:=Demo.office_libs) Demo.memo_docx
             [py "title"; []; py " body "; []]).
  - reflexivity.
  - reflexivity.
  - reflexivity.
  - intros p Hp.
    repeat (apply elem_of_cons in Hp as [->|Hp]; [reflexivity|]).
    by apply elem_of_nil in Hp.
Defined.

(** X5. The texts of the pages of a PDF are put end to end with nothing
    between them: when no page text holds a line boundary and some page
    has text, the whole document is a single row, whatever the number of
    pages. *)
Theorem pdf_pages_merge_into_one_row {L : Libs} (uploaded : UploadedFile)
        (pages : list (outcome (option (list N)))) :
  file_extension uploaded = py "pdf" →
  pdf_pages (content uploaded) = Ok pages →
  (∀ p, p ∈ pages → ∃ t, p = Ok t ∧ break_free (page_contribution p) = true) →
  concat (map page_contribution pages) ≠ [] →
  run (read_uploaded_file uploaded)
  = ([], Ok (mkDataFrame [py "text_content"]
               [[VStr (strip (concat (map page_contribution pages)))]])).
Proof.
  intros Hext Hpages Hok Hne.
  rewrite (read_pdf uploaded pages Hext Hpages).
  rewrite pdf_text_ok by (intros p Hp; destruct (Hok p Hp) as (t & -> & _); eauto).
  cbn [app]. unfold text_frame. rewrite splitlines_break_free; [done| |done].
  unfold break_free. rewrite forallb_forall. intros c Hc.
  apply in_concat in Hc as (t & Ht & Hc).
  apply in_map_iff in Ht as (p & <- & Hp).
  destruct (Hok p) as (_ & _ & Hbf); [by apply list_elem_of_In|].
  unfold break_free in Hbf. rewrite forallb_forall in Hbf. by apply Hbf.
Qed.

Lemma pdf_pages_merge_into_one_row_witness :
  run (read_uploaded_file (L:=Demo.office_libs) Demo.scan_pdf)
  = ([], Ok (mkDataFrame [py "text_content"] [[VStr (py "alpha beta")]])).
Proof.
  rewrite (pdf_pages_merge_into_one_row (L:=Demo.office_libs) Demo.scan_pdf
             [Ok (Some (py "alpha ")); Ok None; Ok (Some (py "beta"))]).
  - reflexivity.
  - reflexivity.
  - reflexivity.
  - intros p Hp.
    repeat (apply elem_of_cons in Hp as [->|Hp]; [by eexists|]).
    by apply elem_of_nil in Hp.
  - discriminate.
Defined.

(* ------------------------------------------------------------------ *)
(** ** Further properties: the cleaning stage and its reports           *)
(* ------------------------------------------------------------------ *)

Section MoreCleaning.

(** [dedup] looks at [seen] only through the rows of the list. *)
Lemma dedup_seen_ext (seen seen' rs : list (list value)) :
  (∀ x, x ∈ rs → x ∈ seen ↔ x ∈ seen') →
  dedup seen rs = dedup seen' rs.
Proof.
  revert seen seen'. induction rs as [|r rs IH]; intros seen seen' H; [done|].
  rewrite !dedup_cons.
  assert (dedup (r :: seen) rs = dedup (r :: seen') rs) as E.
  { apply IH. intros x Hx. rewrite !elem_of_cons.
    specialize (H x (list_elem_of_further _ _ _ Hx)). tauto. }
  rewrite E.
  destruct (decide (r ∈ seen)) as [Hin|Hout].
  - rewrite !bool_decide_eq_true_2; [done| |done].
    by apply (H r (list_elem_of_here _ _)).
  - rewrite !bool_decide_eq_false_2; [done| |done].
    intros Hin. apply Hout. by apply (H r (list_elem_of_here _ _)).
Qed.

Lemma filter_dedup (f : list value → bool) (seen rs : list (list value)) :
  List.filter f (dedup seen rs) = dedup seen (List.filter f rs).
Proof.
  revert seen. induction rs as [|r rs IH]; intros seen; [done|].
  rewrite dedup_cons. cbn [List.filter].
  destruct (f r) eqn:Hf.
  - rewrite dedup_cons. case_bool_decide; cbn [List.filter];
      rewrite ?Hf, IH; done.
  - assert (dedup seen (List.filter f rs)
            = dedup (r :: seen) (List.filter f rs)) as E.
    { apply dedup_seen_ext. intros x [_ Hx]%elem_of_filter_bool.
      rewrite elem_of_cons. split; [by right|].
      intros [->|]; [congruence|done]. }
    rewrite E. case_bool_decide; cbn [List.filter]; rewrite ?Hf, IH; done.
Qed.

Lemma dedup_length_le (seen rs : list (list value)) :
  (length (dedup seen rs) ≤ length rs)%nat.
Proof. apply sublist_length, dedup_sublist. Qed.

(** Nothing is removed exactly from the lists without repetition that
    avoid [seen]. *)
Lemma dedup_length_eq (seen rs : list (list value)) :
  length (dedup seen rs) = length rs ↔
  NoDup rs ∧ ∀ x, x ∈ rs → x ∉ seen.
Proof.
  split.
  - revert seen. induction rs as [|r rs IH]; intros seen Hlen.
    { split; [constructor|]. by intros x ?%elem_of_nil. }
    rewrite dedup_cons in Hlen.
    pose proof (dedup_length_le (r :: seen) rs) as Hle.
    case_bool_decide as Hr; simpl in Hlen; [lia|].
    destruct (IH (r :: seen)) as [Hnd Hdisj]; [lia|].
    split.
    + constructor; [|done]. intros Hin.
      apply (Hdisj r Hin). by left.
    + intros x [->|Hx]%elem_of_cons; [done|].
      intros Hs. apply (Hdisj x Hx). by right.
  - intros [Hnd Hdisj]. by rewrite dedup_id.
Qed.

Lemma filter_nil_iff (f : list value → bool) (rs : list (list value)) :
  List.filter f rs = [] ↔ ∀ r, r ∈ rs → f r = false.
Proof.
  induction rs as [|r rs IH]; simpl.
  - split; [by intros _ x ?%elem_of_nil | done].
  - destruct (f r) eqn:Hf.
    + split; [done|]. intros H. specialize (H r (list_elem_of_here _ _)).
      congruence.
    + rewrite IH. split.
      * intros H x [->|Hx]%elem_of_cons; auto.
      * intros H x Hx. apply H. by right.
Qed.

End MoreCleaning.

(** X6. The cleaned table has no missing cell and no two equal rows, and
    its rows are exactly the complete rows of the input, each kept once;
    both counts are non-negative. *)
Theorem cleaned_table_invariants (df : DataFrame) :
  let '(cleaned, removed_na, removed_dup) := clean_block df in
  NoDup (rows cleaned)
  ∧ (∀ r, r ∈ rows cleaned ↔ r ∈ rows df ∧ incomplete r = false)
  ∧ (∀ r v, r ∈ rows cleaned → v ∈ r → v ≠ VNull)
  ∧ 0 ≤ removed_na ∧ 0 ≤ removed_dup
  ∧ len cleaned ≤ len df.
Proof.
  pose proof (clean_block_table df) as Ht.
  pose proof (clean_block_removed_na df) as Hna.
  pose proof (clean_block_removed_dup df) as Hdup.
  pose proof (clean_block_NoDup df) as Hnd.
  pose proof (clean_block_complete df) as Hc.
  destruct (clean_block df) as [[cleaned na] dup]; cbn [fst snd] in *.
  subst cleaned. unfold len in *; cbn [rows] in *.
  set (complete := List.filter (λ r, negb (incomplete r)) (rows df)) in *.
  pose proof (dedup_length_le [] complete) as Hle.
  pose proof (filter_split_length incomplete (rows df)) as Hsplit.
  fold complete in Hsplit.
  split; [done|]. split; [|split; [|lia]].
  - intros r. unfold complete.
    rewrite elem_of_dedup, elem_of_filter_bool, negb_true_iff.
    split; [tauto|]. intros H. split; [done|apply not_elem_of_nil].
  - intros r v Hr Hv ->. apply Hc in Hr.
    unfold incomplete in Hr. apply not_true_iff_false in Hr. apply Hr.
    apply existsb_exists. exists VNull.
    split; [by apply list_elem_of_In|done].
Qed.

Lemma cleaned_table_invariants_witness :
  [VNum 1; VNum 2] ∈ rows (clean_block Demo.scenario1).1.1
  ∧ [VNum 3; VNull] ∉ rows (clean_block Demo.scenario1).1.1.
Proof.
  pose proof (cleaned_table_invariants Demo.scenario1) as H.
  destruct (clean_block Demo.scenario1) as [[cleaned na] dup] eqn:E.
  destruct H as (_ & Hin & _). cbn [fst].
  split.
  - apply Hin. split; [|reflexivity].
    apply (bool_decide_unpack _). by vm_compute.
  - intros Hr. apply Hin in Hr as [_ Hr]. discriminate Hr.
Defined.

(** X7. The page says that no incomplete row was found exactly when no
    row of the input has a missing cell, and that no duplicate row was
    found exactly when the complete rows of the input are all different;
    otherwise it gives the number removed. *)
Theorem reports_match_the_input (df : DataFrame) :
  let '(_, removed_na, removed_dup) := clean_block df in
  let complete := List.filter (λ r, negb (incomplete r)) (rows df) in
  (run (report_block removed_na removed_dup)).1
  = [if decide (Forall (λ r, incomplete r = false) (rows df))
     then st_success (check_mark ++ py " No incomplete rows found.")
     else st_info (wastebasket ++ py " Removed " ++ py (pretty removed_na)
                     ++ py " incomplete rows.");
     if decide (NoDup complete)
     then st_success (check_mark ++ py " No duplicate rows found.")
     else st_info (wastebasket ++ py " Removed " ++ py (pretty removed_dup)
                     ++ py " duplicate rows.")].
Proof.
  pose proof (clean_block_table df) as Ht.
  pose proof (clean_block_removed_na df) as Hna.
  pose proof (clean_block_removed_dup df) as Hdup.
  destruct (clean_block df) as [[cleaned na] dup]; cbn [fst snd] in *.
  set (complete := List.filter (λ r, negb (incomplete r)) (rows df)) in *.
  rewrite Ht in Hdup. unfold len in Hdup; cbn [rows] in Hdup.
  pose proof (dedup_length_le [] complete) as Hle.
  pose proof (dedup_length_eq [] complete) as Heq.
  pose proof (filter_nil_iff incomplete (rows df)) as Hnil.
  unfold run, report_block, mbind, ui_bind, bind, emit.
  assert ((0 <? na) = false
          ↔ Forall (λ r, incomplete r = false) (rows df)) as H1.
  { rewrite Forall_forall, <- Hnil, Z.ltb_ge, Hna.
    destruct (List.filter incomplete (rows df)); simpl; split; (done || lia). }
  assert ((0 <? dup) = false ↔ NoDup complete) as H2.
  { rewrite Z.ltb_ge, Hdup. split.
    - intros H. apply Heq. lia.
    - intros H. assert (length (dedup [] complete) = length complete); [|lia].
      apply Heq. split; [done|]. intros x _. apply not_elem_of_nil. }
  destruct (0 <? na) eqn:E1, (0 <? dup) eqn:E2;
    repeat case_decide; try reflexivity;
    try (exfalso; by (apply H1 || apply H2));
    exfalso;
    match goal with
    | H : (false = false ↔ ?P), Hn : ¬ ?P |- _ => by apply Hn, H
    | H : (true = false ↔ ?P), Hp : ?P |- _ => by apply H in Hp
    end.
Qed.

(** X8. The two filters can be applied in either order: the table is the
    same. *)
Theorem dropna_drop_duplicates_commute (df : DataFrame) :
  dropna (drop_duplicates df) = drop_duplicates (dropna df).
Proof.
  rewrite !drop_duplicates_eq.
  unfold dropna at 1; cbn [rows columns]. rewrite boolean_index_map.
  rewrite dropna_rows. unfold dropna; cbn [columns]. f_equal.
  rewrite <- filter_dedup. apply filter_ext. intros r.
  apply notna_all_incomplete.
Qed.

(* ------------------------------------------------------------------ *)
(** ** Further properties: the hot/cold split over time                 *)
(* ------------------------------------------------------------------ *)

Section MorePartition.

Context {L : Libs}.

Lemma partition_block_some_evs (now : Z) (df : DataFrame) (i : nat)
      (evs : list ui_event) :
  column_index (py "timestamp") df = Some i →
  to_datetime_dtype (get_column i df) = Ok Naive →
  partition_block now df evs
  = (evs, Ok (mkDataFrame (columns df) (map (coerce_row i) (rows df)),
              mkDataFrame (columns df)
                (List.filter (λ r, ge_cutoff (now - timedelta_days 30)
                                             (cell i r))
                             (map (coerce_row i) (rows df))),
              mkDataFrame (columns df)
                (List.filter (λ r, lt_cutoff (now - timedelta_days 30)
                                             (cell i r))
                             (map (coerce_row i) (rows df))))).
Proof.
  intros Hi Hd. unfold partition_block. rewrite Hi.
  unfold mbind, ui_bind, bind, lift. rewrite Hd. cbn [compare_cutoff].
  rewrite set_column_coerce. unfold get_column; cbn [rows columns].
  rewrite <- !boolean_index_map, !List.map_map. done.
Qed.

Lemma three_way_count (cutoff : Z) (i : nat) (rs : list (list value)) :
  (length (List.filter (λ r, ge_cutoff cutoff (cell i r))
                       (map (coerce_row i) rs))
   + length (List.filter (λ r, lt_cutoff cutoff (cell i r))
                         (map (coerce_row i) rs))
   + length (List.filter
               (λ r, bool_decide (to_datetime1 (cell i r) = None)) rs)
   = length rs)%nat.
Proof.
  induction rs as [|r rs IH]; [done|].
  cbn [map List.filter]. rewrite cell_coerce_row.
  destruct (to_datetime1 (cell i r)) as [t|] eqn:Ht; cbn [ge_cutoff lt_cutoff].
  - rewrite bool_decide_eq_false_2 by done.
    destruct (Z.leb_spec cutoff t), (Z.ltb_spec t cutoff);
      simpl; lia.
  - rewrite bool_decide_eq_true_2 by done. simpl. lia.
Qed.

Lemma filter_sublist_mono (f g : list value → bool) (rs : list (list value)) :
  (∀ r, f r = true → g r = true) →
  sublist (List.filter f rs) (List.filter g rs).
Proof.
  intros Hfg. induction rs as [|r rs IH]; simpl; [constructor|].
  destruct (f r) eqn:Hf.
  - rewrite (Hfg r Hf). by constructor.
  - destruct (g r); [by constructor | done].
Qed.

End MorePartition.

(** X9. With a [timestamp] column whose parsed form is time-zone naive
    every row is accounted for once: the sizes of the hot partition, of the cold partition and of the rows
    whose timestamp is absent or does not parse add up to the size of the
    table; the table and both partitions keep the columns. *)
Theorem partition_accounts_for_every_row {L : Libs} (now : Z)
        (df : DataFrame) (i : nat) :
  column_index (py "timestamp") df = Some i →
  to_datetime_dtype (get_column i df) = Ok Naive →
  ∃ df' hot cold,
    run (partition_block now df) = ([], Ok (df', hot, cold))
    ∧ columns df' = columns df
    ∧ columns hot = columns df
    ∧ columns cold = columns df
    ∧ len df' = len df
    ∧ len hot + len cold
      + Z.of_nat (length (List.filter
                            (λ r, bool_decide (to_datetime1 (cell i r) = None))
                            (rows df)))
      = len df.
Proof.
  intros Hi Hd. unfold run.
  rewrite (partition_block_some_evs now df i [] Hi Hd).
  eexists _, _, _. split; [reflexivity|].
  unfold len; cbn [rows columns]. rewrite length_map.
  pose proof (three_way_count (now - timedelta_days 30) i (rows df)).
  repeat split; lia.
Qed.

Lemma partition_accounts_for_every_row_witness :
  ∃ df' hot cold,
    run (partition_block (L:=Demo.libs) Demo.now2 Demo.unparsable)
    = ([], Ok (df', hot, cold))
    ∧ len hot + len cold + 1 = 2.
Proof.
  destruct (partition_accounts_for_every_row (L:=Demo.libs) Demo.now2
              Demo.unparsable 1)
    as (df' & hot & cold & Hrun & _ & _ & _ & _ & Hsum).
  - reflexivity.
  - reflexivity.
  - exists df', hot, cold. split; [exact Hrun | exact Hsum].
Defined.

(** X10. On a table whose parsed [timestamp] column is time-zone naive,
    as time passes rows only leave the hot partition and only enter the
    cold one: for a later evaluation time the hot partition is a
    sub-list of the earlier one and the earlier cold partition is a
    sub-list of the later one; the rewritten table is the same. *)
Theorem hot_shrinks_with_time {L : Libs} (now now' : Z) (df : DataFrame)
        (i : nat) :
  now ≤ now' →
  column_index (py "timestamp") df = Some i →
  to_datetime_dtype (get_column i df) = Ok Naive →
  ∃ df' hot cold hot' cold',
    run (partition_block now df) = ([], Ok (df', hot, cold))
    ∧ run (partition_block now' df) = ([], Ok (df', hot', cold'))
    ∧ sublist (rows hot') (rows hot)
    ∧ sublist (rows cold) (rows cold').
Proof.
  intros Hle Hi Hd. unfold run.
  rewrite !(partition_block_some_evs _ df i [] Hi Hd).
  eexists _, _, _, _, _. split; [reflexivity|]. split; [reflexivity|].
  cbn [rows]. split; apply filter_sublist_mono; intros r;
    destruct (cell i r); simpl; try done; lia.
Qed.

Lemma hot_shrinks_with_time_witness :
  ∃ hot hot',
    (run (partition_block (L:=Demo.libs) Demo.now2 Demo.scenario2)).2
    = Ok (hot.1.1, hot.1.2, hot.2)
    ∧ (run (partition_block (L:=Demo.libs) (Demo.now2 + 40 * Demo.day)
                            Demo.scenario2)).2
      = Ok (hot'.1.1, hot'.1.2, hot'.2)
    ∧ sublist (rows hot'.1.2) (rows hot.1.2).
Proof.
  destruct (hot_shrinks_with_time (L:=Demo.libs) Demo.now2
              (Demo.now2 + 40 * Demo.day) Demo.scenario2 1)
    as (df' & hot & cold & hot' & cold' & H1 & H2 & Hs & _).
  - vm_compute. discriminate.
  - reflexivity.
  - reflexivity.
  - exists (df', hot, cold), (df', hot', cold').
    rewrite H1, H2. repeat split. exact Hs.
Defined.

(* ------------------------------------------------------------------ *)
(** ** Further properties: the dispatcher and the handler               *)
(* ------------------------------------------------------------------ *)

Ltac dispatch_on Hext :=
  unfold run, read_uploaded_file; rewrite Hext;
  repeat (case_decide;
          [match goal with
           | E : py _ = py _ |- _ => vm_compute in E; discriminate E
           end|]);
  case_decide; [|done].

Section MoreHandler.

Context {L : Libs}.

(** A recognized type shows nothing on the page while it is read. *)
Lemma read_recognized_silent (uploaded : UploadedFile) :
  file_extension uploaded ∈ recognized →
  (run (read_uploaded_file uploaded)).1 = [].
Proof.
  unfold recognized. intros Hext.
  repeat (apply elem_of_cons in Hext as [Hext|Hext];
          [dispatch_on Hext; unfold mbind, ui_bind, bind, lift, mret, ui_ret, ret;
           repeat case_match; simplify_eq; done|]).
  by apply elem_of_nil in Hext.
Qed.

Lemma reader_raises_read (uploaded : UploadedFile) (msg : string) :
  reader_raises uploaded msg →
  run (read_uploaded_file uploaded) = ([], Raise msg).
Proof.
  unfold reader_raises.
  intros [[Hext H]|[[Hext H]|[[Hext H]|[[Hext H]|[[Hext H]|[Hext H]]]]]];
    dispatch_on Hext; unfold mbind, ui_bind, bind, lift; by rewrite H.
Qed.

End MoreHandler.

(** X11. Reading a file of a recognized type shows nothing on the page;
    the only widget the dispatcher ever shows is the error for an
    unrecognized type. *)
Theorem dispatcher_is_silent_iff_recognized {L : Libs}
        (uploaded : UploadedFile) :
  (run (read_uploaded_file uploaded)).1 = []
  ↔ file_extension uploaded ∈ recognized.
Proof.
  split; [|apply read_recognized_silent].
  intros Hsilent.
  destruct (decide (file_extension uploaded ∈ recognized)) as [|Hout]; [done|].
  rewrite (read_unsupported uploaded Hout) in Hsilent. discriminate Hsilent.
Qed.

Lemma dispatcher_is_silent_iff_recognized_witness :
  (run (read_uploaded_file (L:=Demo.libs) Demo.notes_txt)).1 = [].
Proof.
  apply (dispatcher_is_silent_iff_recognized (L:=Demo.libs) Demo.notes_txt).
  apply (bool_decide_unpack _). by vm_compute.
Defined.

(** X12. When the reader of the file's type raises, the page shows the
    one generic error with the exception's message and nothing else: no
    preview, no report, no metric and no download, and the handler has no
    result. *)
Theorem reader_failure_shows_one_error {L : Libs} (now : Z)
        (uploaded : UploadedFile) (msg : string) :
  reader_raises uploaded msg →
  run (upload_handler now uploaded)
  = ([st_error (py "An error occurred: " ++ py msg)], Ok None).
Proof.
  intros H. apply handler_read_raise. by apply reader_raises_read.
Qed.

Lemma reader_failure_shows_one_error_witness :
  run (upload_handler (L:=Demo.libs) Demo.now2 Demo.data_csv)
  = ([st_error (py "An error occurred: read_csv")], Ok None).
Proof.
  apply (reader_failure_shows_one_error (L:=Demo.libs) Demo.now2
           Demo.data_csv "read_csv").
  left. split; reflexivity.
Defined.

(** X13. The value of [datetime.now()] read at line 650 reaches no
    widget: for two such values, all else being equal, the handler shows
    the same widgets and keeps the same table and the same CSV bytes, so
    no widget carries the two partitions. The compressed bytes and their
    size, which carry the time of their own writing, are left out of the
    comparison. *)
Theorem page_ignores_the_clock {L : Libs} (now now' : Z)
        (uploaded : UploadedFile) :
  List.filter (λ e, negb (gzip_widget e))
              (run (upload_handler now uploaded)).1
  = List.filter (λ e, negb (gzip_widget e))
                (run (upload_handler now' uploaded)).1
  ∧ table_and_csv (run (upload_handler now uploaded)).2
    = table_and_csv (run (upload_handler now' uploaded)).2.
Proof.
  unfold run, upload_handler, try_except, handler_body.
  unfold mbind, ui_bind, bind.
  destruct (read_uploaded_file uploaded []) as [evs [df|msg|]];
    [|done|done].
  destruct (clean_block df) as [[cleaned na] dup].
  unfold emit, lift, mret, ui_ret, ret.
  rewrite !report_block_events.
  destruct (column_index (py "timestamp") cleaned) as [i|] eqn:Hi.
  - destruct (to_datetime_dtype (get_column i cleaned)) as [[|m]|m|] eqn:Hd.
    + rewrite !(partition_block_some_evs _ cleaned i _ Hi Hd).
      destruct (bytesize_fmt (blen (dataframe_to_csv_bytes cleaned)));
        [|done|done].
      destruct (bytesize_fmt
                  (blen (gzip_compress (dataframe_to_csv_bytes cleaned))));
        done.
    + by rewrite !(partition_block_raises _ cleaned i m _ Hi (or_intror Hd)).
    + by rewrite !(partition_block_raises _ cleaned i m _ Hi (or_introl Hd)).
    + by rewrite !(partition_block_stops _ cleaned i _ Hi Hd).
  - rewrite !partition_block_none by done.
    destruct (bytesize_fmt (blen (dataframe_to_csv_bytes cleaned)));
      [|done|done].
    destruct (bytesize_fmt
                (blen (gzip_compress (dataframe_to_csv_bytes cleaned))));
      done.
Qed.

(** X14. With a [timestamp] column whose parsed form is time-zone naive
    the handler runs to its end: the
    download is the CSV of the cleaned table as it was read, serialized
    before the timestamps are parsed, while the processed preview and the
    table the handler keeps have the parsed column; the row count is that
    of the cleaned table and no warning is shown. *)
Theorem handler_with_timestamp_column {L : Libs} (now : Z)
        (uploaded : UploadedFile) (df : DataFrame) (i : nat) :
  run (read_uploaded_file uploaded) = ([], Ok df) →
  column_index (py "timestamp") (clean_block df).1.1 = Some i →
  to_datetime_dtype (get_column i (clean_block df).1.1) = Ok Naive →
  blen (dataframe_to_csv_bytes (clean_block df).1.1) < 2 ^ 63 →
  blen (gzip_compress (dataframe_to_csv_bytes (clean_block df).1.1)) < 2 ^ 63 →
  let cleaned := (clean_block df).1.1 in
  let processed_csv := dataframe_to_csv_bytes cleaned in
  let compressed := gzip_compress processed_csv in
  let parsed := mkDataFrame (columns cleaned)
                            (map (coerce_row i) (rows cleaned)) in
  ∃ csv_size gzip_size hot cold,
    bytesize_fmt (blen processed_csv) = Ok csv_size
    ∧ bytesize_fmt (blen compressed) = Ok gzip_size
    ∧ run (partition_block now cleaned) = ([], Ok (parsed, hot, cold))
    ∧ run (upload_handler now uploaded)
      = ([st_markdown (py "**Original Data Preview:**");
          st_dataframe (head df)]
         ++ (run (report_block (clean_block df).1.2 (clean_block df).2)).1
         ++ [st_metric (py "Rows") (MInt (len cleaned));
             st_metric (py "CSV Size") (MStr (py csv_size));
             st_metric (py "Gzip Size") (MStr (py gzip_size));
             st_markdown (py "**Processed Data Preview:**");
             st_dataframe (head parsed);
             st_download_button (down_arrow ++ py " Download Processed CSV")
               processed_csv (py "processed.csv") (py "text/csv");
             st_download_button (down_arrow ++ py " Download Compressed Gzip")
               compressed (py "processed.csv.gz") (py "application/gzip")],
         Ok (Some (mkLocals parsed hot cold processed_csv compressed))).
Proof.
  intros Hread Hcol Hd Hcsv Hgz cleaned processed_csv compressed parsed.
  destruct (bytesize_fmt_blen processed_csv Hcsv) as [csv_size Hs1].
  destruct (bytesize_fmt_blen compressed Hgz) as [gzip_size Hs2].
  exists csv_size, gzip_size. eexists _, _.
  split; [done|]. split; [done|].
  split.
  { unfold run.
    by rewrite (partition_block_some_evs now cleaned i [] Hcol Hd). }
  unfold run in *.
  unfold upload_handler, try_except, handler_body.
  unfold mbind at 1. unfold ui_bind at 1. unfold bind at 1.
  rewrite Hread.
  subst parsed cleaned processed_csv compressed.
  destruct (clean_block df) as [[cleaned na] dup]; cbn [fst snd] in *.
  unfold mbind, ui_bind, bind, emit, lift, mret, ui_ret, ret.
  rewrite report_block_events.
  rewrite (partition_block_some_evs now cleaned i _ Hcol Hd).
  rewrite Hs1, Hs2.
  rewrite <- !app_assoc. unfold len; cbn [rows]. rewrite length_map. done.
Qed.

Lemma handler_with_timestamp_column_witness :
  ∃ evs loc,
    run (upload_handler (L:=Demo.office_libs) Demo.now2 Demo.data_csv)
    = (evs, Ok (Some loc))
    ∧ l_processed_csv loc = [Byte.x61; Byte.x0a]
    ∧ rows (l_df loc) = [[VNum 1; VTime (55 * Demo.day)];
                         [VNum 2; VTime (98 * Demo.day)]].
Proof.
  destruct (handler_with_timestamp_column (L:=Demo.office_libs) Demo.now2
              Demo.data_csv Demo.scenario2 1)
    as (s1 & s2 & hot & cold & _ & _ & _ & Hrun).
  - reflexivity.
  - reflexivity.
  - reflexivity.
  - vm_compute. reflexivity.
  - vm_compute. reflexivity.
  - eexists _, _. split; [exact Hrun|]. split; reflexivity.
Defined.

(* ------------------------------------------------------------------ *)
(** ** Further properties: [bytesize_fmt]                               *)
(* ------------------------------------------------------------------ *)

Section MoreSizes.

Lemma round_to_53_lower (a : Z) :
  2 ^ 53 ≤ a → 2 ^ Z.log2 a ≤ round_to_53 a.
Proof.
  intros H. unfold round_to_53.
  assert (0 < a) as Hpos by lia.
  assert (53 ≤ Z.log2 a) as Hlog by (apply Z.log2_le_pow2; lia).
  destruct (Z.log2_spec a Hpos) as [Hlo Hhi].
  destruct (Z.leb_spec (Z.log2 a + 1) 53) as [Hle|_]; [lia|].
  set (sh := Z.log2 a + 1 - 53).
  assert (0 < sh) as Hsh by (unfold sh; lia).
  assert (0 < 2 ^ sh) as Hp by (apply Z.pow_pos_nonneg; lia).
  assert (2 ^ Z.log2 a = 2 ^ 52 * 2 ^ sh) as E1.
  { rewrite <- Z.pow_add_r by lia. f_equal. unfold sh. lia. }
  assert (2 ^ 52 ≤ a / 2 ^ sh) as Hq1.
  { apply Z.div_le_lower_bound; lia. }
  set (q := a / 2 ^ sh) in *.
  set (q' := if a mod 2 ^ sh <? 2 ^ (sh - 1) then q
             else if 2 ^ (sh - 1) <? a mod 2 ^ sh then q + 1
             else if Z.even q then q else q + 1).
  assert (q ≤ q') as Hq' by (unfold q'; repeat case_match; lia).
  rewrite E1. apply Z.mul_le_mono_nonneg_r; lia.
Qed.

Lemma round_to_53_pos (a : Z) : 0 < a → 0 < round_to_53 a.
Proof.
  intros Ha. destruct (Z.lt_ge_cases a (2 ^ 53)) as [Hs|Hl].
  - rewrite round_to_53_exact by lia. done.
  - pose proof (round_to_53_bounds a Hl). lia.
Qed.

Lemma float_of_int_opp (n : Z) :
  float_of_int (- n)
  = match float_of_int n with
    | Ok m => Ok (- m)
    | other => other
    end.
Proof.
  unfold float_of_int. rewrite Z.abs_opp, Z.sgn_opp.
  destruct (2 ^ 1024 <=? round_to_53 (Z.abs n)); [done|].
  f_equal. lia.
Qed.

Lemma format_fixed_opp (d : nat) (m den : Z) :
  0 < m →
  format_fixed d (- m) den = ("-" +:+ format_fixed d m den)%string.
Proof.
  intros Hm. unfold format_fixed. rewrite Z.abs_opp.
  destruct (Z.ltb_spec (- m) 0); [|lia].
  destruct (Z.ltb_spec m 0); [lia|]. done.
Qed.

Lemma bytesize_loop_opp (units : list string) (m : Z) (k : nat)
      (suffix : string) :
  0 < m →
  ∃ s, bytesize_loop units (PyFloat m k) suffix = Ok s
       ∧ bytesize_loop units (PyFloat (- m) k) suffix
         = Ok ("-" +:+ s)%string.
Proof.
  intros Hm. revert k. induction units as [|unit units IH]; intros k.
  - cbn [bytesize_loop format_f obind]. rewrite format_fixed_opp by done.
    eexists. split; reflexivity.
  - cbn [bytesize_loop abs_lt_1024]. rewrite Z.abs_opp.
    destruct (Z.abs m <? 1024 * 1024 ^ Z.of_nat k).
    + cbn [format_f obind]. rewrite format_fixed_opp by done.
      eexists. split; reflexivity.
    + cbn [truediv_1024 obind]. apply IH.
Qed.

Lemma bytesize_fmt_first_turn (n : Z) :
  bytesize_fmt n
  = if Z.abs n <? 1024
    then obind (format_f 2 (PyInt n)) (λ s, Ok (s +:+ " B")%string)
    else obind (truediv_1024 (PyInt n))
               (λ num, bytesize_loop ["K"; "M"; "G"; "T"]%string num "B"%string).
Proof. reflexivity. Qed.

End MoreSizes.

(** X15. A negative size is printed as the positive one with a minus
    sign in front: same divisions, same suffix, same digits. *)
Theorem bytesize_fmt_negative_mirrors_positive (n : Z) (s : string) :
  0 < n →
  bytesize_fmt n = Ok s →
  bytesize_fmt (- n) = Ok ("-" +:+ s)%string.
Proof.
  intros Hn. rewrite !bytesize_fmt_first_turn, Z.abs_opp.
  assert (∀ m, float_of_int n = Ok m → 0 < m) as Hpos.
  { unfold float_of_int. intros m.
    destruct (2 ^ 1024 <=? round_to_53 (Z.abs n)); [done|].
    intros [= <-]. pose proof (round_to_53_pos (Z.abs n)).
    destruct n; simpl in *; lia. }
  destruct (Z.abs n <? 1024).
  - cbn [format_f]. rewrite float_of_int_opp.
    destruct (float_of_int n) as [m| |]; cbn [obind]; [|done|done].
    rewrite format_fixed_opp by (by apply Hpos). by intros [= <-].
  - cbn [truediv_1024]. rewrite float_of_int_opp.
    destruct (float_of_int n) as [m| |]; cbn [obind]; [|done|done].
    destruct (bytesize_loop_opp ["K"; "M"; "G"; "T"]%string m 1 "B"
                (Hpos m eq_refl)) as (s' & H1 & H2).
    rewrite H1, H2. by intros [= <-].
Qed.

Lemma bytesize_fmt_negative_mirrors_positive_witness :
  bytesize_fmt (- 1536000) = Ok "-1.46 MB"%string.
Proof.
  apply (bytesize_fmt_negative_mirrors_positive 1536000 "1.46 MB").
  - reflexivity.
  - vm_compute. reflexivity.
Defined.

(** X16. The one failure of [bytesize_fmt]: an integer of magnitude
    [2^1024] or more does not convert to a float, and the call raises
    the overflow error of that conversion. *)
Theorem bytesize_fmt_overflow (n : Z) :
  2 ^ 1024 ≤ Z.abs n →
  bytesize_fmt n = Raise "int too large to convert to float".
Proof.
  intros Hn. rewrite bytesize_fmt_first_turn.
  assert (1024 < 2 ^ 1024) as H1024.
  { change 1024 with (2 ^ 10). apply Z.pow_lt_mono_r; lia. }
  destruct (Z.ltb_spec (Z.abs n) 1024); [lia|].
  cbn [truediv_1024]. unfold float_of_int.
  assert (2 ^ 53 < 2 ^ 1024) as H53 by (apply Z.pow_lt_mono_r; lia).
  pose proof (round_to_53_lower (Z.abs n)) as Hlow.
  assert (1024 ≤ Z.log2 (Z.abs n)) as Hlog by (apply Z.log2_le_pow2; lia).
  assert (2 ^ 1024 ≤ 2 ^ Z.log2 (Z.abs n)) by (apply Z.pow_le_mono_r; lia).
  destruct (Z.leb_spec (2 ^ 1024) (round_to_53 (Z.abs n))); [done|lia].
Qed.

Lemma bytesize_fmt_overflow_witness :
  bytesize_fmt (- 2 ^ 1024) = Raise "int too large to convert to float".
Proof.
  apply (bytesize_fmt_overflow (- 2 ^ 1024)).
  vm_compute. discriminate.
Defined.

(* ------------------------------------------------------------------ *)
(** ** Further properties: navigation                                   *)
(* ------------------------------------------------------------------ *)

Section MoreNav.

Lemma press_buttons_closed (names : list (list N)) (clicked : list N → bool)
      (selected : list N) :
  selected ∈ section_names →
  (∀ n, n ∈ names → n ∈ section_names) →
  press_buttons names clicked selected ∈ section_names.
Proof.
  revert selected. induction names as [|n names IH]; intros sel Hsel Hn.
  - done.
  - simpl. apply IH.
    + destruct (clicked n); [apply Hn; by left | done].
    + intros x Hx. apply Hn. by right.
Qed.

Lemma navigate_in_names (session : option (list N))
      (clicked : list N → bool) :
  (∀ s, session = Some s → s ∈ section_names) →
  navigate session clicked ∈ section_names.
Proof.
  intros Hs. unfold navigate. apply press_buttons_closed; [|done].
  destruct session as [s|]; simpl; [by apply Hs|].
  apply (bool_decide_unpack _). by vm_compute.
Qed.

Lemma runs_in_names (session : option (list N))
      (clicks : list (list N → bool)) :
  (∀ s, session = Some s → s ∈ section_names) →
  ∀ s, runs session clicks = Some s → s ∈ section_names.
Proof.
  revert session. induction clicks as [|clicked clicks IH];
    intros session Hs; simpl; [done|].
  apply IH. intros s [= <-]. by apply navigate_in_names.
Qed.

Lemma press_buttons_last (names : list (list N)) (clicked : list N → bool)
      (selected : list N) :
  press_buttons names clicked selected
  = default selected (last (List.filter clicked names)).
Proof.
  revert selected. induction names as [|n names IH]; intros sel; [done|].
  cbn [press_buttons List.filter]. rewrite IH.
  destruct (clicked n); [|done].
  rewrite last_cons. by destruct (last (List.filter clicked names)).
Qed.

End MoreNav.

(** X17. From a fresh session and after any series of runs, whatever is
    clicked in each, the selected section is one of the seven sections:
    the look-up of its text never fails. *)
Theorem selected_section_always_exists (text : list N → list N)
        (clicks : list (list N → bool)) (clicked : list N → bool) :
  navigate (runs None clicks) clicked ∈ section_names
  ∧ section_lookup text (navigate (runs None clicks) clicked)
    = Ok (text (navigate (runs None clicks) clicked)).
Proof.
  assert (navigate (runs None clicks) clicked ∈ section_names) as Hin.
  { apply navigate_in_names. by apply (runs_in_names None clicks). }
  split; [done|]. unfold section_lookup. by case_decide.
Qed.

(** X18. In a run the selected section becomes the last clicked button,
    in the order of the sidebar; without a click it stays what the
    session holds, and is General in a fresh session. *)
Theorem navigate_last_click_wins (session : option (list N))
        (clicked : list N → bool) :
  navigate session clicked
  = default (default (py "General") session)
            (last (List.filter clicked section_names)).
Proof.
  unfold navigate. rewrite press_buttons_last. by destruct session.
Qed.

(* ------------------------------------------------------------------ *)
(** ** Further properties: text-like uploads and downloads              *)
(* ------------------------------------------------------------------ *)

Section MoreUploads.

Context {L : Libs}.

Lemma read_text_like_frame (uploaded : UploadedFile) (df : DataFrame) :
  file_extension uploaded ∈ text_like →
  run (read_uploaded_file uploaded) = ([], Ok df) →
  ∃ text_content, df = text_frame text_content.
Proof.
  unfold text_like. intros Hext.
  repeat (apply elem_of_cons in Hext as [Hext|Hext];
          [dispatch_on Hext;
           unfold mbind, ui_bind, bind, lift, mret, ui_ret, ret;
           repeat case_match; intros; simplify_eq; eauto|]).
  by apply elem_of_nil in Hext.
Qed.

Lemma text_frame_complete (text_content : list N) :
  List.filter incomplete (rows (text_frame text_content)) = [].
Proof.
  unfold text_frame; cbn [rows].
  induction (splitlines text_content) as [|l ls IH]; [done|]. apply IH.
Qed.



End MoreUploads.

(** X19. A text, PDF or DOCX upload that is read has the single column
    [text_content], so it never has a [timestamp] column: no row is
    counted incomplete, the hot/cold split is always skipped with the
    warning, and both partitions are empty. *)
Theorem text_like_uploads_skip_the_split {L : Libs} (now : Z)
        (uploaded : UploadedFile) (df : DataFrame) :
  file_extension uploaded ∈ text_like →
  run (read_uploaded_file uploaded) = ([], Ok df) →
  let cleaned := (clean_block df).1.1 in
  columns df = [py "text_content"]
  ∧ (clean_block df).1.2 = 0
  ∧ run (partition_block now cleaned)
    = ([st_warning (py "No 'timestamp' column found. Skipping hot/cold data distribution.")],
       Ok (cleaned, empty_frame, empty_frame)).
Proof.
  intros Hext Hread cleaned.
  destruct (read_text_like_frame uploaded df Hext Hread) as [t ->].
  split; [done|]. split.
  - by rewrite clean_block_removed_na, text_frame_complete.
  - unfold run. rewrite partition_block_none; [done|].
    subst cleaned. rewrite clean_block_table. by vm_compute.
Qed.

Lemma text_like_uploads_skip_the_split_witness :
  (clean_block (text_frame Demo.blank_line_text)).1.2 = 0.
Proof.
  destruct (text_like_uploads_skip_the_split (L:=Demo.libs) Demo.now2
              Demo.notes_txt (text_frame Demo.blank_line_text))
    as (_ & Hna & _).
  - apply (bool_decide_unpack _). by vm_compute.
  - reflexivity.
  - exact Hna.
Defined.


(** X21. When the parsing call of line 649 raises, or the parsed
    [timestamp] column carries a time zone, the handler stops at the
    split: the page shows the original preview, the two reports and the
    generic error with the exception's message, and no metric, processed
    preview or download; the handler has no result. *)
Theorem handler_stops_at_the_split {L : Libs} (now : Z)
        (uploaded : UploadedFile) (df : DataFrame) (i : nat) (msg : string) :
  run (read_uploaded_file uploaded) = ([], Ok df) →
  column_index (py "timestamp") (clean_block df).1.1 = Some i →
  to_datetime_dtype (get_column i (clean_block df).1.1) = Raise msg
  ∨ to_datetime_dtype (get_column i (clean_block df).1.1) = Ok (Aware msg) →
  run (upload_handler now uploaded)
  = ([st_markdown (py "**Original Data Preview:**");
      st_dataframe (head df)]
     ++ (run (report_block (clean_block df).1.2 (clean_block df).2)).1
     ++ [st_error (py "An error occurred: " ++ py msg)],
     Ok None).
Proof.
  intros Hread Hcol Hd. unfold run in *.
  unfold upload_handler, try_except, handler_body.
  unfold mbind at 1. unfold ui_bind at 1. unfold bind at 1.
  rewrite Hread.
  destruct (clean_block df) as [[cleaned na] dup]; cbn [fst snd] in *.
  unfold mbind, ui_bind, bind, emit, lift, mret, ui_ret, ret.
  rewrite report_block_events.
  rewrite (partition_block_raises now cleaned i msg _ Hcol Hd).
  by rewrite <- !app_assoc.
Qed.

Lemma handler_stops_at_the_split_witness :
  run (upload_handler (L:=Demo.utc_libs) Demo.now_zulu Demo.data_csv)
  = ([st_markdown (py "**Original Data Preview:**");
      st_dataframe Demo.zulu;
      st_success (check_mark ++ py " No incomplete rows found.");
      st_success (check_mark ++ py " No duplicate rows found.");
      st_error (py "An error occurred: Invalid comparison between dtype=datetime64[ns, UTC] and datetime")],
     Ok None).
Proof.
  rewrite (handler_stops_at_the_split (L:=Demo.utc_libs) Demo.now_zulu
             Demo.data_csv Demo.zulu 1
             "Invalid comparison between dtype=datetime64[ns, UTC] and datetime").
  - reflexivity.
  - reflexivity.
  - reflexivity.
  - right. reflexivity.
Defined.
